(** * Mergington High School activities API (src/app.py)

    A shallow embedding of the request handlers of [app.py] and the
    properties of the activity registry they maintain.

    The module-level dictionary [activities] is the only mutable state of the
    program.  Each handler that reads or mutates it is a function from the
    registry before the call to an outcome and the registry after the call.
    A handler that raises leaves whatever it had mutated so far in place, so
    the registry is returned next to the outcome in both cases.

    The two library calls of the login path, [bcrypt.checkpw] and
    [Response.set_cookie], are parameters: each returns or raises, and what
    it raises leaves the handler, which catches nothing.

    In [app.py] the helpers [load_teachers], [authenticate_teacher] and
    [get_current_user] stand textually between the opening brace of the
    [activities] literal and its first entry (lines 45-64).  They are modelled
    as the module-level functions the handlers call, and [activities] as the
    nine entries of lines 65-118. *)

From Stdlib Require Import ZArith.
From stdpp Require Import gmap strings list fin_maps.

Open Scope Z_scope.

(** ** Python values used by the handlers *)

(** [x in l] on a list of strings. *)
Definition list_contains (x : string) (l : list string) : bool :=
  bool_decide (x ∈ l).

(** [l.append(x)]. *)
Definition list_append (l : list string) (x : string) : list string :=
  l ++ [x].

(** The exceptions a handler can leave with: [HTTPException], which FastAPI
    turns into a response with that status, the [ValueError] of [list.remove]
    on an absent element and of [bcrypt.checkpw], and the
    [UnicodeEncodeError] of [Response.set_cookie].  The handlers catch
    none of them. *)
Inductive Exception :=
| HTTPException (status_code : Z) (detail : string)
| ValueError (msg : string)
| UnicodeEncodeError (reason : string).

Inductive Outcome (A : Type) :=
| Return (a : A)
| Raise (e : Exception).
Arguments Return {A} a.
Arguments Raise {A} e.

(** [l.remove(x)]: drops the first element equal to [x]; raises when there is
    none. *)
Fixpoint list_remove (x : string) (l : list string) : Outcome (list string) :=
  match l with
  | [] => Raise (ValueError "list.remove(x): x not in list")
  | y :: l' =>
      if decide (y = x) then Return l'
      else match list_remove x l' with
           | Return r => Return (y :: r)
           | Raise e => Raise e
           end
  end.

(** Values of the JSON bodies the handlers return: a string or [None]. *)
Inductive Value :=
| Str (s : string)
| Null.

(** A returned [dict] literal, in the order it is written. *)
Definition Body := list (string * Value).

(** Truth value of an [Optional[str]]: [None] and the empty string are
    false. *)
Definition truthy (o : option string) : bool :=
  match o with
  | Some s => negb (String.eqb s "")
  | None => false
  end.

(** ** Data model *)

(** One value of the [activities] dictionary. *)
Record Activity := mkActivity {
  description : string;
  schedule : string;
  max_participants : Z;
  participants : list string
}.

(** [activity["participants"] = ps]: the other fields are kept. *)
Definition set_participants (ps : list string) (a : Activity) : Activity :=
  {| description := description a;
     schedule := schedule a;
     max_participants := max_participants a;
     participants := ps |}.

(** One element of the list stored in [teachers.json]. *)
Record Teacher := mkTeacher {
  username : string;
  password_hash : string
}.

(** [request.cookies]. *)
Record Request := mkRequest {
  cookies : gmap string string
}.

(** What a handler has asked the [Response] to do with cookies. *)
Inductive CookieDirective :=
| SetCookie (key value : string) (httponly : bool)
| DeleteCookie (key : string).

Record Response := mkResponse {
  cookie_directives : list CookieDirective
}.

Definition delete_cookie (key : string) (response : Response) : Response :=
  {| cookie_directives := cookie_directives response ++ [DeleteCookie key] |}.

Definition SESSION_COOKIE : string := "mhsauth".

(** The in-memory activity database as the module creates it. *)
Definition activities : gmap string Activity :=
  list_to_map [
    ("Chess Club",
     mkActivity "Learn strategies and compete in chess tournaments"
       "Fridays, 3:30 PM - 5:00 PM" 12
       ["michael@mergington.edu"; "daniel@mergington.edu"]);
    ("Programming Class",
     mkActivity "Learn programming fundamentals and build software projects"
       "Tuesdays and Thursdays, 3:30 PM - 4:30 PM" 20
       ["emma@mergington.edu"; "sophia@mergington.edu"]);
    ("Gym Class",
     mkActivity "Physical education and sports activities"
       "Mondays, Wednesdays, Fridays, 2:00 PM - 3:00 PM" 30
       ["john@mergington.edu"; "olivia@mergington.edu"]);
    ("Soccer Team",
     mkActivity "Join the school soccer team and compete in matches"
       "Tuesdays and Thursdays, 4:00 PM - 5:30 PM" 22
       ["liam@mergington.edu"; "noah@mergington.edu"]);
    ("Basketball Team",
     mkActivity "Practice and play basketball with the school team"
       "Wednesdays and Fridays, 3:30 PM - 5:00 PM" 15
       ["ava@mergington.edu"; "mia@mergington.edu"]);
    ("Art Club",
     mkActivity "Explore your creativity through painting and drawing"
       "Thursdays, 3:30 PM - 5:00 PM" 15
       ["amelia@mergington.edu"; "harper@mergington.edu"]);
    ("Drama Club",
     mkActivity "Act, direct, and produce plays and performances"
       "Mondays and Wednesdays, 4:00 PM - 5:30 PM" 20
       ["ella@mergington.edu"; "scarlett@mergington.edu"]);
    ("Math Club",
     mkActivity "Solve challenging problems and participate in math competitions"
       "Tuesdays, 3:30 PM - 4:30 PM" 10
       ["james@mergington.edu"; "benjamin@mergington.edu"]);
    ("Debate Team",
     mkActivity "Develop public speaking and argumentation skills"
       "Fridays, 4:00 PM - 5:30 PM" 12
       ["charlotte@mergington.edu"; "henry@mergington.edu"])
  ].

(** ** Helpers *)

(** [get_current_user]: the session cookie, or [None] when it is absent or
    empty. *)
Definition get_current_user (request : Request) : option string :=
  let session := cookies request !! SESSION_COOKIE in
  if negb (truthy session) then None
  else session.

(** ** Handlers on the registry *)

(** [GET /activities]. *)
Definition get_activities (reg : gmap string Activity) : gmap string Activity :=
  reg.

(** [POST /activities/{activity_name}/signup]. *)
Definition signup_for_activity (activity_name email : string)
    (request : Request) (reg : gmap string Activity)
    : Outcome Body * gmap string Activity :=
  let user := get_current_user request in
  if negb (truthy user) then
    (Raise (HTTPException 401 "Authentication required (teacher/admin only)"),
     reg)
  else
    match reg !! activity_name with
    | None => (Raise (HTTPException 404 "Activity not found"), reg)
    | Some activity =>
        if list_contains email (participants activity) then
          (Raise (HTTPException 400 "Student is already signed up"), reg)
        else
          (Return [("message",
                    Str ("Signed up " +:+ email +:+ " for " +:+ activity_name))],
           <[activity_name :=
               set_participants (list_append (participants activity) email)
                 activity]> reg)
    end.

(** [DELETE /activities/{activity_name}/unregister]. *)
Definition unregister_from_activity (activity_name email : string)
    (request : Request) (reg : gmap string Activity)
    : Outcome Body * gmap string Activity :=
  let user := get_current_user request in
  if negb (truthy user) then
    (Raise (HTTPException 401 "Authentication required (teacher/admin only)"),
     reg)
  else
    match reg !! activity_name with
    | None => (Raise (HTTPException 404 "Activity not found"), reg)
    | Some activity =>
        if negb (list_contains email (participants activity)) then
          (Raise (HTTPException 400 "Student is not signed up for this activity"),
           reg)
        else
          match list_remove email (participants activity) with
          | Raise e => (Raise e, reg)
          | Return ps =>
              (Return [("message",
                        Str ("Unregistered " +:+ email +:+ " from "
                             +:+ activity_name))],
               <[activity_name := set_participants ps activity]> reg)
          end
    end.

(** [GET /me]. *)
Definition get_me (request : Request) : Body :=
  let user := get_current_user request in
  if truthy user then
    [("user", match user with Some u => Str u | None => Null end)]
  else [("user", Null)].

(** [POST /logout]. *)
Definition logout (response : Response) : Body * Response :=
  ([("message", Str "Logged out")], delete_cookie SESSION_COOKIE response).

(** ** Authentication against the credential file *)

Section Login.

(** [bcrypt.checkpw] on the encoded password and the encoded stored hash.
    The library is not part of the program, so it is a parameter here.  It
    returns a truth value or raises (on a stored string that is no bcrypt
    hash, on a password the library refuses), and neither
    [authenticate_teacher] nor [login] catches what it raises. *)
Variable checkpw : list Byte.byte -> list Byte.byte -> Outcome bool.

(** The exception, if any, that Starlette's [Response.set_cookie] raises for
    a key and a value while it builds the header (a value the header
    encoding does not take).  It is a parameter as well. *)
Variable cookie_error : string -> string -> option Exception.

(** [response.set_cookie(key=..., value=..., httponly=...)]: raises before
    the response is touched, or adds the directive. *)
Definition set_cookie (key value : string) (httponly : bool)
    (response : Response) : Outcome Response :=
  match cookie_error key value with
  | Some e => Raise e
  | None =>
      Return {| cookie_directives :=
                  cookie_directives response
                  ++ [SetCookie key value httponly] |}
  end.

(** [s.encode()]: the bytes of the string. *)
Definition encode (s : string) : list Byte.byte :=
  String.list_byte_of_string s.

(** [load_teachers]: the list [json.load] returns for the file as it is at
    the time of the call. *)
Definition load_teachers (teachers_file : list Teacher) : list Teacher :=
  teachers_file.

(** The [for t in teachers] loop of [authenticate_teacher].  [and] calls
    [bcrypt.checkpw] only when the username is the given one; the loop
    returns at the first record that verifies, and an exception of
    [bcrypt.checkpw] ends it. *)
Fixpoint authenticate_scan (teachers : list Teacher)
    (user password : string) : Outcome bool :=
  match teachers with
  | [] => Return false
  | t :: rest =>
      if String.eqb (username t) user then
        match checkpw (encode password) (encode (password_hash t)) with
        | Raise e => Raise e
        | Return true => Return true
        | Return false => authenticate_scan rest user password
        end
      else authenticate_scan rest user password
  end.

Definition authenticate_teacher (teachers_file : list Teacher)
    (user password : string) : Outcome bool :=
  let teachers := load_teachers teachers_file in
  authenticate_scan teachers user password.

(** [POST /login]. *)
Definition login (teachers_file : list Teacher) (response : Response)
    (user password : string) : Outcome Body * Response :=
  match authenticate_teacher teachers_file user password with
  | Raise e => (Raise e, response)
  | Return true =>
      match set_cookie SESSION_COOKIE user true response with
      | Raise e => (Raise e, response)
      | Return response' =>
          (Return [("message", Str "Login successful"); ("user", Str user)],
           response')
      end
  | Return false => (Raise (HTTPException 401 "Invalid credentials"), response)
  end.

End Login.

(** ** Vocabulary of the properties *)

(** The request carries a non-empty session cookie [s]. *)
Definition has_session (request : Request) (s : string) : Prop :=
  cookies request !! SESSION_COOKIE = Some s ∧ s ≠ "".

(** The request carries no session cookie, or an empty one. *)
Definition no_session (request : Request) : Prop :=
  cookies request !! SESSION_COOKIE = None
  ∨ cookies request !! SESSION_COOKIE = Some "".

(** [sub] occurs in [s]. *)
Definition contains (s sub : string) : Prop :=
  ∃ pre post, s = pre +:+ sub +:+ post.

(** Number of entries of [l] equal to [x]. *)
Definition occurrences (x : string) (l : list string) : nat :=
  length (filter (λ y, y = x) l).

(** The participant list of activity [name], when it is in the registry. *)
Definition participants_of (name : string) (reg : gmap string Activity)
    : option (list string) :=
  participants <$> reg !! name.

(** The status a handler's outcome is answered with. *)
Definition status_of {A} (o : Outcome A) : option Z :=
  match o with
  | Return _ => Some 200
  | Raise (HTTPException status_code _) => Some status_code
  | Raise (ValueError _) => None
  | Raise (UnicodeEncodeError _) => None
  end.

(** Some record of the credential list has the given username and a hash
    that the password verifies against. *)
Definition credential_matches
    (checkpw : list Byte.byte -> list Byte.byte -> Outcome bool)
    (teachers : list Teacher) (user password : string) : Prop :=
  ∃ t, t ∈ teachers
       ∧ username t = user
       ∧ checkpw (encode password) (encode (password_hash t)) = Return true.

(** [bcrypt.checkpw] raises on no record of the list that has the given
    username. *)
Definition checkpw_answers
    (checkpw : list Byte.byte -> list Byte.byte -> Outcome bool)
    (teachers : list Teacher) (user password : string) : Prop :=
  ∀ t, t ∈ teachers → username t = user →
       ∃ b, checkpw (encode password) (encode (password_hash t)) = Return b.

(** The exceptions the two registry handlers raise. *)
Definition unauthenticated : Exception :=
  HTTPException 401 "Authentication required (teacher/admin only)".

Definition not_found : Exception :=
  HTTPException 404 "Activity not found".

Definition already_registered : Exception :=
  HTTPException 400 "Student is already signed up".

Definition not_registered : Exception :=
  HTTPException 400 "Student is not signed up for this activity".

Definition invalid_credentials : Exception :=
  HTTPException 401 "Invalid credentials".

(** Two activity records agree on everything but their participants. *)
Definition same_details (a b : Activity) : Prop :=
  description a = description b
  ∧ schedule a = schedule b
  ∧ max_participants a = max_participants b.

(** Between [before] and [after] nothing but the participant list of
    activity [name] may differ: the keys are the same, every other entry is
    the same, and the entry of [name] keeps its description, schedule and
    capacity. *)
Definition only_participants_of (name : string)
    (before after : gmap string Activity) : Prop :=
  dom after = dom before
  ∧ (∀ other, other ≠ name → after !! other = before !! other)
  ∧ (∀ a, before !! name = Some a →
          ∃ a', after !! name = Some a' ∧ same_details a a').

(** From [before] to [after] the catalogue is kept: the same keys, and under
    each key the same description, schedule and capacity. *)
Definition same_catalogue (before after : gmap string Activity) : Prop :=
  dom after = dom before
  ∧ (∀ name a, before !! name = Some a →
               ∃ a', after !! name = Some a' ∧ same_details a a').

(** The keys of the [activities] literal, in the order they are written. *)
Definition activity_names : list string :=
  ["Chess Club"; "Programming Class"; "Gym Class"; "Soccer Team";
   "Basketball Team"; "Art Club"; "Drama Club"; "Math Club"; "Debate Team"].

(** ** The service as a transition system on the registry *)

(** [GET /]: the URL the client is redirected to. *)
Definition root : string := "/static/index.html".

(** One request to the service, with what the framework hands to the
    handler; a login also comes with the content of [teachers.json] at that
    moment. *)
Inductive Call :=
| CallRoot
| CallGetActivities
| CallSignup (activity_name email : string) (request : Request)
| CallUnregister (activity_name email : string) (request : Request)
| CallLogin (teachers_file : list Teacher) (response : Response)
    (user password : string)
| CallLogout (response : Response)
| CallGetMe (request : Request).

(** The calls that do not go to the two mutating handlers. *)
Definition read_only (call : Call) : bool :=
  match call with
  | CallSignup _ _ _ | CallUnregister _ _ _ => false
  | _ => true
  end.

Section Service.

Variable checkpw : list Byte.byte -> list Byte.byte -> Outcome bool.
Variable cookie_error : string -> string -> option Exception.

(** The registry after a call.  Only [signup_for_activity] and
    [unregister_from_activity] assign to it; the other handlers do not
    mention [activities], or only read it. *)
Definition handle (call : Call) (reg : gmap string Activity)
    : gmap string Activity :=
  match call with
  | CallRoot => let _ := root in reg
  | CallGetActivities => let _ := get_activities reg in reg
  | CallSignup activity_name email request =>
      (signup_for_activity activity_name email request reg).2
  | CallUnregister activity_name email request =>
      (unregister_from_activity activity_name email request reg).2
  | CallLogin teachers_file response user password =>
      let _ :=
        login checkpw cookie_error teachers_file response user password in
      reg
  | CallLogout response => let _ := logout response in reg
  | CallGetMe request => let _ := get_me request in reg
  end.

(** The registry after a sequence of calls, served one after the other. *)
Definition serve (calls : list Call) (reg : gmap string Activity)
    : gmap string Activity :=
  foldl (λ r call, handle call r) reg calls.

End Service.

(** ** Inputs of the examples *)

Definition teacher_request : Request :=
  {| cookies := {[ "mhsauth" := "teacher1" ]} |}.

Definition forged_request : Request :=
  {| cookies := {[ "mhsauth" := "nobody" ]} |}.

Definition anonymous_request : Request :=
  {| cookies := ∅ |}.

Definition empty_cookie_request : Request :=
  {| cookies := {[ "mhsauth" := "" ]} |}.

(** A stand-in for [bcrypt.checkpw] in the examples: the stored hash is the
    password itself, and nothing raises. *)
Definition plain_checkpw (password hashed : list Byte.byte) : Outcome bool :=
  Return (String.eqb (String.string_of_list_byte password)
            (String.string_of_list_byte hashed)).

(** A stand-in that refuses what is no hash, as the library does: a stored
    hash is "$2b$" followed by the password, and on any other stored string
    the check raises the library's [ValueError]. *)
Definition strict_checkpw (password hashed : list Byte.byte) : Outcome bool :=
  let stored := String.string_of_list_byte hashed in
  if String.prefix "$2b$" stored then
    Return (String.eqb ("$2b$" +:+ String.string_of_list_byte password) stored)
  else Raise (ValueError "Invalid salt").

(** A stand-in for [Response.set_cookie] that takes every value. *)
Definition accepting_cookies (key value : string) : option Exception :=
  None.

(** A stand-in that encodes the header as latin-1, as Starlette does: a
    value with a character from U+0100 on, which in the UTF-8 bytes of the
    string shows as a byte from 0xC4 on, raises. *)
Definition latin1_cookies (key value : string) : option Exception :=
  if forallb (λ c, (Ascii.nat_of_ascii c <? 196)%nat)
       (String.list_ascii_of_string value)
  then None
  else Some (UnicodeEncodeError "'latin-1' codec can't encode characters").

(** A credential file for [strict_checkpw]. *)
Definition hashed_teacher_file : list Teacher :=
  [mkTeacher "teacher1" "$2b$chalk"].


(** A credential file whose first record for "teacher1" stores no hash. *)
Definition broken_teacher_file : list Teacher :=
  [mkTeacher "teacher1" "chalk"; mkTeacher "teacher1" "$2b$chalk"].

Definition broken_teacher_file_swapped : list Teacher :=
  [mkTeacher "teacher1" "$2b$chalk"; mkTeacher "teacher1" "chalk"].

(** A credential file whose record stores the password itself, which is no
    hash. *)
Definition one_teacher_file : list Teacher :=
  [mkTeacher "teacher1" "chalk"].

Definition fresh_response : Response :=
  {| cookie_directives := [] |}.

(** Eight pupils sign up for "Math Club", which has ten places and two
    participants at the start. *)
Definition fill_math_club : list Call :=
  (λ email, CallSignup "Math Club" email teacher_request)
  <$> ["p1@mergington.edu"; "p2@mergington.edu"; "p3@mergington.edu";
       "p4@mergington.edu"; "p5@mergington.edu"; "p6@mergington.edu";
       "p7@mergington.edu"; "p8@mergington.edu"].

Definition full_math_club : Activity :=
  mkActivity "Solve challenging problems and participate in math competitions"
    "Tuesdays, 3:30 PM - 4:30 PM" 10
    ["james@mergington.edu"; "benjamin@mergington.edu";
     "p1@mergington.edu"; "p2@mergington.edu"; "p3@mergington.edu";
     "p4@mergington.edu"; "p5@mergington.edu"; "p6@mergington.edu";
     "p7@mergington.edu"; "p8@mergington.edu"].

(** ** Vocabulary of the further properties *)

(** No participant list of the registry holds an email twice. *)
Definition no_duplicates (reg : gmap string Activity) : Prop :=
  ∀ name a, reg !! name = Some a → NoDup (participants a).

(** The activity whose entry a call may assign to. *)
Definition call_target (call : Call) : option string :=
  match call with
  | CallSignup activity_name _ _ | CallUnregister activity_name _ _ =>
      Some activity_name
  | _ => None
  end.

(** The four statuses the two registry handlers answer with. *)
Definition registry_statuses : list (option Z) :=
  [Some 200; Some 400; Some 401; Some 404].

Definition hashed_two_teacher_file : list Teacher :=
  [mkTeacher "teacher1" "$2b$chalk"; mkTeacher "teacher2" "$2b$board"].

Definition hashed_two_teacher_file_swapped : list Teacher :=
  [mkTeacher "teacher2" "$2b$board"; mkTeacher "teacher1" "$2b$chalk"].

Definition chess_club : Activity :=
  mkActivity "Learn strategies and compete in chess tournaments"
    "Fridays, 3:30 PM - 5:00 PM" 12
    ["michael@mergington.edu"; "daniel@mergington.edu"].

(** ** Session check *)

Lemma truthy_Some s : truthy (Some s) = true ↔ s ≠ "".
Proof.
  simpl. rewrite negb_true_iff. apply String.eqb_neq.
Qed.

Lemma get_current_user_session request s :
  has_session request s → get_current_user request = Some s.
Proof.
  intros [Hc Hs]. unfold get_current_user. rewrite Hc.
  apply truthy_Some in Hs. by rewrite Hs.
Qed.

Lemma get_current_user_no_session request :
  no_session request → get_current_user request = None.
Proof.
  unfold get_current_user. by intros [-> | ->].
Qed.

Lemma get_current_user_truthy request u :
  get_current_user request = Some u → truthy (Some u) = true.
Proof.
  unfold get_current_user.
  destruct (truthy (cookies request !! SESSION_COOKIE)) eqn:Ht; simpl; [|done].
  intros Hu. by rewrite Hu in Ht.
Qed.

(** ** Python list operations *)

Lemma list_contains_true x l : list_contains x l = true ↔ x ∈ l.
Proof. unfold list_contains. apply bool_decide_eq_true. Qed.

Lemma list_contains_false x l : list_contains x l = false ↔ x ∉ l.
Proof. unfold list_contains. apply bool_decide_eq_false. Qed.

Lemma list_remove_app_new x l :
  x ∉ l → list_remove x (l ++ [x]) = Return l.
Proof.
  induction l as [|y l IH]; intros Hx; simpl.
  - by rewrite decide_True.
  - apply not_elem_of_cons in Hx as [Hne Hx].
    rewrite decide_False by done. by rewrite IH.
Qed.

Lemma list_remove_elem x l :
  x ∈ l → ∃ l', list_remove x l = Return l'.
Proof.
  induction l as [|y l IH]; intros Hx.
  - by apply elem_of_nil in Hx.
  - simpl. destruct (decide (y = x)) as [->|Hne]; [by eexists|].
    apply elem_of_cons in Hx as [->|Hx]; [done|].
    destruct (IH Hx) as [l' ->]. by eexists.
Qed.

Lemma occurrences_app x l1 l2 :
  occurrences x (l1 ++ l2) = (occurrences x l1 + occurrences x l2)%nat.
Proof. unfold occurrences. by rewrite filter_app, length_app. Qed.

Lemma occurrences_absent x l : x ∉ l → occurrences x l = 0%nat.
Proof.
  unfold occurrences. induction l as [|y l IH]; intros Hx; [done|].
  apply not_elem_of_cons in Hx as [Hne Hx].
  rewrite filter_cons_False by congruence. by apply IH.
Qed.

Lemma occurrences_append_new x l :
  x ∉ l → occurrences x (list_append l x) = 1%nat.
Proof.
  intros Hx. unfold list_append. rewrite occurrences_app, occurrences_absent by done.
  unfold occurrences. by rewrite filter_cons_True.
Qed.

(** ** Messages *)

Lemma contains_signup_email email activity_name :
  contains ("Signed up " +:+ email +:+ " for " +:+ activity_name) email.
Proof. by exists "Signed up ", (" for " +:+ activity_name). Qed.

Lemma string_app_nil_r (s : string) : s +:+ "" = s.
Proof.
  induction s as [|c s IH]; [done|].
  change (String c (s +:+ "") = String c s). by rewrite IH.
Qed.

Lemma string_app_assoc (s1 s2 s3 : string) :
  (s1 +:+ s2) +:+ s3 = s1 +:+ s2 +:+ s3.
Proof.
  induction s1 as [|c s1 IH]; [done|].
  change (String c ((s1 +:+ s2) +:+ s3) = String c (s1 +:+ s2 +:+ s3)).
  by rewrite IH.
Qed.

Lemma contains_suffix (pre sub : string) : contains (pre +:+ sub) sub.
Proof. exists pre, "". by rewrite string_app_nil_r. Qed.

Lemma contains_signup_activity email activity_name :
  contains ("Signed up " +:+ email +:+ " for " +:+ activity_name) activity_name.
Proof.
  rewrite <- !string_app_assoc. apply contains_suffix.
Qed.

Lemma contains_unregister_email email activity_name :
  contains ("Unregistered " +:+ email +:+ " from " +:+ activity_name) email.
Proof. by exists "Unregistered ", (" from " +:+ activity_name). Qed.

(** ** The four exits of each handler *)

Section Exits.

Variables (activity_name email : string) (request : Request).
Variable reg : gmap string Activity.

Lemma signup_no_session :
  no_session request →
  signup_for_activity activity_name email request reg
  = (Raise unauthenticated, reg).
Proof.
  intros Hn. unfold signup_for_activity.
  by rewrite (get_current_user_no_session _ Hn).
Qed.

Lemma unregister_no_session :
  no_session request →
  unregister_from_activity activity_name email request reg
  = (Raise unauthenticated, reg).
Proof.
  intros Hn. unfold unregister_from_activity.
  by rewrite (get_current_user_no_session _ Hn).
Qed.

Section WithSession.

Variable s : string.
Hypothesis Hsession : has_session request s.

Lemma session_passes : negb (truthy (get_current_user request)) = false.
Proof.
  rewrite (get_current_user_session _ _ Hsession).
  destruct Hsession as [_ Hs]. apply truthy_Some in Hs. by rewrite Hs.
Qed.

Lemma signup_unknown :
  reg !! activity_name = None →
  signup_for_activity activity_name email request reg
  = (Raise not_found, reg).
Proof.
  intros Hl. unfold signup_for_activity. by rewrite session_passes, Hl.
Qed.

Lemma unregister_unknown :
  reg !! activity_name = None →
  unregister_from_activity activity_name email request reg
  = (Raise not_found, reg).
Proof.
  intros Hl. unfold unregister_from_activity.
  by rewrite session_passes, Hl.
Qed.

Variable activity : Activity.
Hypothesis Hactivity : reg !! activity_name = Some activity.

Lemma signup_member :
  email ∈ participants activity →
  signup_for_activity activity_name email request reg
  = (Raise already_registered, reg).
Proof.
  intros He. unfold signup_for_activity.
  rewrite session_passes, Hactivity.
  apply list_contains_true in He. by rewrite He.
Qed.

Lemma signup_new :
  email ∉ participants activity →
  signup_for_activity activity_name email request reg
  = (Return [("message",
              Str ("Signed up " +:+ email +:+ " for " +:+ activity_name))],
     <[activity_name :=
         set_participants (participants activity ++ [email]) activity]>
       reg).
Proof.
  intros He. unfold signup_for_activity.
  rewrite session_passes, Hactivity.
  apply list_contains_false in He. by rewrite He.
Qed.

Lemma unregister_absent :
  email ∉ participants activity →
  unregister_from_activity activity_name email request reg
  = (Raise not_registered, reg).
Proof.
  intros He. unfold unregister_from_activity.
  rewrite session_passes, Hactivity.
  apply list_contains_false in He. by rewrite He.
Qed.

Lemma unregister_member :
  email ∈ participants activity →
  ∃ ps,
    list_remove email (participants activity) = Return ps
    ∧ unregister_from_activity activity_name email request reg
      = (Return [("message",
                  Str ("Unregistered " +:+ email +:+ " from "
                       +:+ activity_name))],
         <[activity_name := set_participants ps activity]> reg).
Proof.
  intros He. destruct (list_remove_elem _ _ He) as [ps Hps].
  exists ps. split; [done|]. unfold unregister_from_activity.
  rewrite session_passes, Hactivity.
  apply list_contains_true in He. by rewrite He, Hps.
Qed.

End WithSession.

End Exits.

Lemma activities_chess_club :
  activities !! "Chess Club"
  = Some (mkActivity "Learn strategies and compete in chess tournaments"
            "Fridays, 3:30 PM - 5:00 PM" 12
            ["michael@mergington.edu"; "daniel@mergington.edu"]).
Proof. vm_compute. reflexivity. Qed.

Lemma participants_of_insert name a (reg : gmap string Activity) :
  participants_of name (<[name := a]> reg) = Some (participants a).
Proof. unfold participants_of. by rewrite lookup_insert_eq. Qed.

(** ** Signing up *)

(** C1: with a non-empty session cookie, signing up an email that is not in
    the participant list of a registered activity returns (status 200) a
    message that contains the email and the activity name, and the
    activity's participant list becomes the old list followed by the email:
    the prior entries keep their positions and the email occurs exactly once.
    From the initial registry, signing up "new@mergington.edu" for
    "Chess Club" turns [michael; daniel] into [michael; daniel; new]. *)
Theorem signup_appends_email :
  (∀ (reg : gmap string Activity) activity_name email request s activity,
      reg !! activity_name = Some activity →
      email ∉ participants activity →
      has_session request s →
      ∃ msg reg',
        signup_for_activity activity_name email request reg
        = (Return [("message", Str msg)], reg')
        ∧ status_of (signup_for_activity activity_name email request reg).1
          = Some 200
        ∧ contains msg email ∧ contains msg activity_name
        ∧ participants_of activity_name reg'
          = Some (participants activity ++ [email])
        ∧ take (length (participants activity))
            (participants activity ++ [email]) = participants activity
        ∧ last (participants activity ++ [email]) = Some email
        ∧ occurrences email (participants activity ++ [email]) = 1%nat)
  ∧ (∀ request s,
      has_session request s →
      participants_of "Chess Club" activities
      = Some ["michael@mergington.edu"; "daniel@mergington.edu"]
      ∧ status_of (signup_for_activity "Chess Club" "new@mergington.edu"
                     request activities).1 = Some 200
      ∧ participants_of "Chess Club"
          (signup_for_activity "Chess Club" "new@mergington.edu"
             request activities).2
        = Some ["michael@mergington.edu"; "daniel@mergington.edu";
                "new@mergington.edu"]).
Proof.
  split.
  - intros reg activity_name email request s activity Hl He Hs.
    pose proof (signup_new activity_name email request reg s Hs activity Hl He)
      as Heq.
    eexists _, _. split; [exact Heq|]. rewrite Heq.
    split; [done|]. split; [apply contains_signup_email|].
    split; [apply contains_signup_activity|].
    split; [apply participants_of_insert|].
    split; [by rewrite take_app_length|].
    split; [apply last_snoc|].
    by apply occurrences_append_new.
  - intros request s Hs.
    assert (He : "new@mergington.edu"
                 ∉ ["michael@mergington.edu"; "daniel@mergington.edu"]).
    { apply list_contains_false. vm_compute. reflexivity. }
    rewrite (signup_new _ _ _ _ s Hs _ activities_chess_club He).
    split; [|split].
    + unfold participants_of. by rewrite activities_chess_club.
    + done.
    + simpl. by rewrite participants_of_insert.
Qed.

Lemma teacher_request_session : has_session teacher_request "teacher1".
Proof. split; [reflexivity | discriminate]. Qed.

Lemma signup_appends_email_witness :
  activities !! "Chess Club"
  = Some (mkActivity "Learn strategies and compete in chess tournaments"
            "Fridays, 3:30 PM - 5:00 PM" 12
            ["michael@mergington.edu"; "daniel@mergington.edu"])
  ∧ ("new@mergington.edu"
     ∉ ["michael@mergington.edu"; "daniel@mergington.edu"])
  ∧ has_session teacher_request "teacher1"
  ∧ ∃ msg reg',
      signup_for_activity "Chess Club" "new@mergington.edu" teacher_request
        activities = (Return [("message", Str msg)], reg')
      ∧ participants_of "Chess Club" reg'
        = Some ["michael@mergington.edu"; "daniel@mergington.edu";
                "new@mergington.edu"].
Proof.
  assert (He : "new@mergington.edu"
               ∉ ["michael@mergington.edu"; "daniel@mergington.edu"]).
  { apply list_contains_false. vm_compute. reflexivity. }
  split; [apply activities_chess_club|].
  split; [exact He|].
  split; [apply teacher_request_session|].
  destruct (proj1 signup_appends_email activities "Chess Club"
              "new@mergington.edu" teacher_request "teacher1" _
              activities_chess_club He teacher_request_session)
    as (msg & reg' & Heq & _ & _ & _ & Hps & _).
  exists msg, reg'. split; [exact Heq | exact Hps].
Defined.

(** ** The session check *)

Lemma signup_status_with_session activity_name email request s
    (reg : gmap string Activity) :
  has_session request s →
  status_of (signup_for_activity activity_name email request reg).1
  ∈ [Some 200; Some 404; Some 400].
Proof.
  intros Hs. destruct (reg !! activity_name) as [activity|] eqn:Hl.
  - destruct (decide (email ∈ participants activity)) as [He|He].
    + rewrite (signup_member _ _ _ _ s Hs activity Hl He). set_solver.
    + rewrite (signup_new _ _ _ _ s Hs activity Hl He). set_solver.
  - rewrite (signup_unknown _ _ _ _ s Hs Hl). set_solver.
Qed.

Lemma unregister_status_with_session activity_name email request s
    (reg : gmap string Activity) :
  has_session request s →
  status_of (unregister_from_activity activity_name email request reg).1
  ∈ [Some 200; Some 404; Some 400].
Proof.
  intros Hs. destruct (reg !! activity_name) as [activity|] eqn:Hl.
  - destruct (decide (email ∈ participants activity)) as [He|He].
    + destruct (unregister_member _ _ _ _ s Hs activity Hl He)
        as (ps & _ & ->). set_solver.
    + rewrite (unregister_absent _ _ _ _ s Hs activity Hl He). set_solver.
  - rewrite (unregister_unknown _ _ _ _ s Hs Hl). set_solver.
Qed.

Lemma passed_not_401 : Some 401 ∉ [Some 200; Some 404; Some 400].
Proof. rewrite !not_elem_of_cons. repeat split; [done..|]. apply not_elem_of_nil. Qed.

Lemma authenticate_scan_no_username checkpw teachers user password :
  (∀ t, t ∈ teachers → username t ≠ user) →
  authenticate_scan checkpw teachers user password = Return false.
Proof.
  induction teachers as [|t rest IH]; intros Hno; [done|]. simpl.
  assert (String.eqb (username t) user = false) as ->.
  { apply String.eqb_neq, Hno. by left. }
  apply IH. intros t' Ht'. apply Hno. by right.
Qed.

(** C2: the session check of SignUp, Unregister and WhoAmI looks only at
    whether the session cookie is present and non-empty.  For every non-empty
    cookie value [s] the current user is [s], [get_me] answers with [s], and
    neither SignUp nor Unregister answers 401, for every activity name, email
    and registry.  This holds for every [s], including one that is the
    username of no record of the credential file, for which every login
    attempt is refused.  Without the cookie (or with an empty one) [get_me]
    answers with a null user. *)
Theorem session_cookie_not_verified :
  (∀ request s,
      has_session request s →
      get_current_user request = Some s
      ∧ get_me request = [("user", Str s)]
      ∧ (∀ activity_name email (reg : gmap string Activity),
            status_of (signup_for_activity activity_name email request reg).1
            ≠ Some 401
            ∧ status_of
                (unregister_from_activity activity_name email request reg).1
              ≠ Some 401)
      ∧ (∀ checkpw teachers_file password,
            (∀ t, t ∈ teachers_file → username t ≠ s) →
            authenticate_teacher checkpw teachers_file s password
            = Return false))
  ∧ (∀ request, no_session request → get_me request = [("user", Null)]).
Proof.
  split.
  - intros request s Hs.
    pose proof (get_current_user_session _ _ Hs) as Hu.
    split; [exact Hu|]. split.
    + unfold get_me. rewrite Hu. destruct Hs as [_ Hs].
      apply truthy_Some in Hs. by rewrite Hs.
    + split.
      * intros activity_name email reg. split.
        -- pose proof (signup_status_with_session activity_name email
                         request s reg Hs) as Hst.
           intros Heq. rewrite Heq in Hst. by apply passed_not_401 in Hst.
        -- pose proof (unregister_status_with_session activity_name email
                         request s reg Hs) as Hst.
           intros Heq. rewrite Heq in Hst. by apply passed_not_401 in Hst.
      * intros checkpw teachers_file password Hno.
        by apply authenticate_scan_no_username.
  - intros request Hn. unfold get_me.
    by rewrite (get_current_user_no_session _ Hn).
Qed.

Lemma session_cookie_not_verified_witness :
  has_session forged_request "nobody"
  ∧ no_session anonymous_request
  ∧ get_me forged_request = [("user", Str "nobody")]
  ∧ status_of (signup_for_activity "Chess Club" "new@mergington.edu"
                 forged_request activities).1 ≠ Some 401
  ∧ get_me anonymous_request = [("user", Null)].
Proof.
  assert (Hs : has_session forged_request "nobody").
  { split; [reflexivity | discriminate]. }
  assert (Hn : no_session anonymous_request).
  { left. reflexivity. }
  split; [exact Hs|]. split; [exact Hn|].
  destruct session_cookie_not_verified as [Hyes Hno].
  destruct (Hyes forged_request "nobody" Hs) as (_ & Hme & Hst & _).
  split; [exact Hme|].
  split; [exact (proj1 (Hst "Chess Club" "new@mergington.edu" activities))|].
  exact (Hno anonymous_request Hn).
Defined.

(** C3: without a session cookie (absent or empty), SignUp and Unregister
    raise the 401 "Authentication required" exception and return the registry
    as it was, for every activity name, every email and every registry:
    whether the activity exists and whether the email is a participant plays
    no part. *)
Theorem no_session_unauthenticated activity_name email request
    (reg : gmap string Activity) :
  no_session request →
  signup_for_activity activity_name email request reg
  = (Raise unauthenticated, reg)
  ∧ unregister_from_activity activity_name email request reg
    = (Raise unauthenticated, reg)
  ∧ status_of (A := Body) (Raise unauthenticated) = Some 401.
Proof.
  intros Hn. split; [by apply signup_no_session|].
  split; [by apply unregister_no_session | done].
Qed.

Lemma no_session_unauthenticated_witness :
  no_session empty_cookie_request
  ∧ signup_for_activity "Chess Club" "michael@mergington.edu"
      empty_cookie_request activities
    = (Raise unauthenticated, activities)
  ∧ unregister_from_activity "No Such Club" "x@mergington.edu"
      anonymous_request activities
    = (Raise unauthenticated, activities).
Proof.
  assert (Hn : no_session empty_cookie_request) by (right; reflexivity).
  assert (Hn' : no_session anonymous_request) by (left; reflexivity).
  split; [exact Hn|]. split.
  - exact (proj1 (no_session_unauthenticated "Chess Club"
                    "michael@mergington.edu" empty_cookie_request
                    activities Hn)).
  - exact (proj1 (proj2 (no_session_unauthenticated "No Such Club"
                           "x@mergington.edu" anonymous_request
                           activities Hn'))).
Defined.


(** ** Capacity *)

Lemma fill_math_club_full :
  serve plain_checkpw accepting_cookies fill_math_club activities !! "Math Club"
  = Some full_math_club.
Proof. vm_compute. reflexivity. Qed.

(** C4: capacity is not enforced.  When the participant list of a registered
    activity already has at least [max_participants] entries, signing up an
    email that is not in it (with a non-empty session cookie) still returns
    normally and appends the email; the capacity is kept as it was, so the
    list is then strictly longer than [max_participants]. *)
Theorem capacity_not_enforced (reg : gmap string Activity)
    activity_name email request s activity :
  reg !! activity_name = Some activity →
  max_participants activity ≤ Z.of_nat (length (participants activity)) →
  email ∉ participants activity →
  has_session request s →
  ∃ msg reg' activity',
    signup_for_activity activity_name email request reg
    = (Return [("message", Str msg)], reg')
    ∧ reg' !! activity_name = Some activity'
    ∧ participants activity' = participants activity ++ [email]
    ∧ max_participants activity' = max_participants activity
    ∧ max_participants activity' < Z.of_nat (length (participants activity')).
Proof.
  intros Hl Hfull He Hs.
  rewrite (signup_new _ _ _ _ s Hs activity Hl He).
  eexists _, _, _. split; [reflexivity|].
  split; [apply lookup_insert_eq|]. simpl.
  split; [done|]. split; [done|].
  rewrite length_app. simpl. lia.
Qed.

Lemma capacity_not_enforced_witness :
  serve plain_checkpw accepting_cookies fill_math_club activities !! "Math Club"
  = Some full_math_club
  ∧ max_participants full_math_club
    ≤ Z.of_nat (length (participants full_math_club))
  ∧ ("p9@mergington.edu" ∉ participants full_math_club)
  ∧ has_session teacher_request "teacher1"
  ∧ ∃ msg reg' activity',
      signup_for_activity "Math Club" "p9@mergington.edu" teacher_request
        (serve plain_checkpw accepting_cookies fill_math_club activities)
      = (Return [("message", Str msg)], reg')
      ∧ reg' !! "Math Club" = Some activity'
      ∧ max_participants activity' = 10
      ∧ length (participants activity') = 11%nat.
Proof.
  assert (Hfull : max_participants full_math_club
                  ≤ Z.of_nat (length (participants full_math_club))).
  { vm_compute. discriminate. }
  assert (He : "p9@mergington.edu" ∉ participants full_math_club).
  { apply list_contains_false. vm_compute. reflexivity. }
  split; [apply fill_math_club_full|].
  split; [exact Hfull|]. split; [exact He|].
  split; [apply teacher_request_session|].
  destruct (capacity_not_enforced _ "Math Club" "p9@mergington.edu"
              teacher_request "teacher1" full_math_club
              fill_math_club_full Hfull He teacher_request_session)
    as (msg & reg' & activity' & Heq & Hl & Hps & Hmax & _).
  exists msg, reg', activity'.
  split; [exact Heq|]. split; [exact Hl|].
  split; [by rewrite Hmax | by rewrite Hps].
Defined.

(** ** Rejected requests *)

(** C5: with a non-empty session cookie, signing up an email that is already
    in the participant list of a registered activity raises the 400 "already
    signed up" exception, and the registry, hence that participant list and
    its length, is as before. *)
Theorem signup_member_rejected (reg : gmap string Activity)
    activity_name email request s activity :
  reg !! activity_name = Some activity →
  email ∈ participants activity →
  has_session request s →
  signup_for_activity activity_name email request reg
  = (Raise already_registered, reg)
  ∧ status_of (signup_for_activity activity_name email request reg).1
    = Some 400
  ∧ participants_of activity_name
      (signup_for_activity activity_name email request reg).2
    = Some (participants activity)
  ∧ (length <$> participants_of activity_name
                  (signup_for_activity activity_name email request reg).2)
    = Some (length (participants activity)).
Proof.
  intros Hl He Hs.
  rewrite (signup_member _ _ _ _ s Hs activity Hl He). simpl.
  unfold participants_of. by rewrite Hl.
Qed.

Lemma michael_in_chess_club :
  "michael@mergington.edu"
  ∈ ["michael@mergington.edu"; "daniel@mergington.edu"].
Proof. apply list_contains_true. vm_compute. reflexivity. Qed.

Lemma signup_member_rejected_witness :
  has_session teacher_request "teacher1"
  ∧ signup_for_activity "Chess Club" "michael@mergington.edu"
      teacher_request activities
    = (Raise already_registered, activities).
Proof.
  split; [apply teacher_request_session|].
  exact (proj1 (signup_member_rejected activities "Chess Club"
                  "michael@mergington.edu" teacher_request "teacher1" _
                  activities_chess_club michael_in_chess_club
                  teacher_request_session)).
Defined.

(** C6: with a non-empty session cookie, unregistering an email that is not
    in the participant list of a registered activity raises the 400 "not
    signed up" exception, and the registry, hence that participant list, is
    as before. *)
Theorem unregister_absent_rejected (reg : gmap string Activity)
    activity_name email request s activity :
  reg !! activity_name = Some activity →
  email ∉ participants activity →
  has_session request s →
  unregister_from_activity activity_name email request reg
  = (Raise not_registered, reg)
  ∧ status_of (unregister_from_activity activity_name email request reg).1
    = Some 400
  ∧ participants_of activity_name
      (unregister_from_activity activity_name email request reg).2
    = Some (participants activity).
Proof.
  intros Hl He Hs.
  rewrite (unregister_absent _ _ _ _ s Hs activity Hl He). simpl.
  unfold participants_of. by rewrite Hl.
Qed.

Lemma stranger_not_in_chess_club :
  "stranger@mergington.edu"
  ∉ ["michael@mergington.edu"; "daniel@mergington.edu"].
Proof. apply list_contains_false. vm_compute. reflexivity. Qed.

Lemma unregister_absent_rejected_witness :
  has_session teacher_request "teacher1"
  ∧ unregister_from_activity "Chess Club" "stranger@mergington.edu"
      teacher_request activities
    = (Raise not_registered, activities).
Proof.
  split; [apply teacher_request_session|].
  exact (proj1 (unregister_absent_rejected activities "Chess Club"
                  "stranger@mergington.edu" teacher_request "teacher1" _
                  activities_chess_club stranger_not_in_chess_club
                  teacher_request_session)).
Defined.

(** C7: with a non-empty session cookie, SignUp and Unregister for a name
    that is not a key of the registry raise the 404 "Activity not found"
    exception, for every email, and the registry is as before. *)
Theorem unknown_activity_not_found (reg : gmap string Activity)
    activity_name email request s :
  reg !! activity_name = None →
  has_session request s →
  signup_for_activity activity_name email request reg
  = (Raise not_found, reg)
  ∧ unregister_from_activity activity_name email request reg
    = (Raise not_found, reg)
  ∧ status_of (A := Body) (Raise not_found) = Some 404.
Proof.
  intros Hl Hs. split; [by eapply signup_unknown|].
  split; [by eapply unregister_unknown | done].
Qed.

Lemma unknown_activity_not_found_witness :
  activities !! "Knitting Circle" = None
  ∧ has_session teacher_request "teacher1"
  ∧ signup_for_activity "Knitting Circle" "michael@mergington.edu"
      teacher_request activities
    = (Raise not_found, activities)
  ∧ unregister_from_activity "Knitting Circle" "michael@mergington.edu"
      teacher_request activities
    = (Raise not_found, activities).
Proof.
  assert (Hl : activities !! "Knitting Circle" = None).
  { vm_compute. reflexivity. }
  split; [exact Hl|]. split; [apply teacher_request_session|].
  destruct (unknown_activity_not_found activities "Knitting Circle"
              "michael@mergington.edu" teacher_request "teacher1" Hl
              teacher_request_session) as (H1 & H2 & _).
  split; [exact H1 | exact H2].
Defined.

(** ** Signing up and unregistering again *)

Lemma set_participants_same activity :
  set_participants (participants activity) activity = activity.
Proof. by destruct activity. Qed.

Lemma set_participants_twice ps ps' activity :
  set_participants ps (set_participants ps' activity)
  = set_participants ps activity.
Proof. done. Qed.

(** C10: round trip.  In every registry, for every registered activity and
    every email that is not in its participant list, a SignUp (which then
    succeeds) followed by an Unregister of the same email for the same
    activity, both with a non-empty session cookie, succeeds as well and
    gives back the registry as it was before the SignUp, and so the
    participant list of the activity. *)
Theorem signup_unregister_roundtrip (reg : gmap string Activity)
    activity_name email request s request' s' activity :
  reg !! activity_name = Some activity →
  email ∉ participants activity →
  has_session request s →
  has_session request' s' →
  let after_signup := signup_for_activity activity_name email request reg in
  let after_unregister :=
    unregister_from_activity activity_name email request' after_signup.2 in
  status_of after_signup.1 = Some 200
  ∧ status_of after_unregister.1 = Some 200
  ∧ after_unregister.2 = reg
  ∧ participants_of activity_name after_unregister.2
    = Some (participants activity).
Proof.
  intros Hl He Hs Hs' after_signup after_unregister.
  subst after_unregister after_signup.
  rewrite (signup_new _ _ _ _ s Hs activity Hl He). simpl.
  set (signed := set_participants (participants activity ++ [email]) activity).
  assert (Hin : email ∈ participants signed).
  { simpl. apply elem_of_app. right. by left. }
  destruct (unregister_member activity_name email request'
              (<[activity_name := signed]> reg) s' Hs' signed
              (lookup_insert_eq _ _ _) Hin) as (ps & Hps & ->).
  simpl in Hps. rewrite (list_remove_app_new _ _ He) in Hps.
  injection Hps as <-. simpl.
  assert (Hback : <[activity_name :=
                      set_participants (participants activity) signed]>
                    (<[activity_name := signed]> reg) = reg).
  { unfold signed. rewrite set_participants_twice, set_participants_same.
    rewrite insert_insert_eq. by apply insert_id. }
  rewrite Hback. split; [done|]. split; [done|]. split; [done|].
  unfold participants_of. by rewrite Hl.
Qed.

Lemma signup_unregister_roundtrip_witness :
  activities !! "Chess Club"
  = Some (mkActivity "Learn strategies and compete in chess tournaments"
            "Fridays, 3:30 PM - 5:00 PM" 12
            ["michael@mergington.edu"; "daniel@mergington.edu"])
  ∧ ("stranger@mergington.edu"
     ∉ ["michael@mergington.edu"; "daniel@mergington.edu"])
  ∧ has_session teacher_request "teacher1"
  ∧ has_session forged_request "nobody"
  ∧ (unregister_from_activity "Chess Club" "stranger@mergington.edu"
       forged_request
       (signup_for_activity "Chess Club" "stranger@mergington.edu"
          teacher_request activities).2).2 = activities.
Proof.
  assert (Hs' : has_session forged_request "nobody").
  { split; [reflexivity | discriminate]. }
  split; [apply activities_chess_club|].
  split; [apply stranger_not_in_chess_club|].
  split; [apply teacher_request_session|].
  split; [exact Hs'|].
  exact (proj1 (proj2 (proj2
           (signup_unregister_roundtrip activities "Chess Club"
              "stranger@mergington.edu" teacher_request "teacher1"
              forged_request "nobody" _ activities_chess_club
              stranger_not_in_chess_club teacher_request_session Hs')))).
Defined.

(** ** Login *)

Section LoginProperties.

Variable checkpw : list Byte.byte -> list Byte.byte -> Outcome bool.

Lemma authenticate_scan_app l1 l2 user password :
  authenticate_scan checkpw (l1 ++ l2) user password
  = match authenticate_scan checkpw l1 user password with
    | Return false => authenticate_scan checkpw l2 user password
    | answer => answer
    end.
Proof.
  induction l1 as [|t l1 IH]; simpl; [done|].
  destruct (String.eqb (username t) user); [|done].
  by destruct (checkpw (encode password) (encode (password_hash t)))
    as [[|]|e].
Qed.

Lemma authenticate_scan_true teachers user password :
  authenticate_scan checkpw teachers user password = Return true →
  credential_matches checkpw teachers user password.
Proof.
  unfold credential_matches.
  induction teachers as [|t rest IH]; simpl; [done|].
  destruct (String.eqb (username t) user) eqn:Hu.
  - apply String.eqb_eq in Hu.
    destruct (checkpw (encode password) (encode (password_hash t)))
      as [[|]|e] eqn:Hc; [| |done].
    + intros _. exists t. split; [by left | done].
    + intros Hr. destruct (IH Hr) as (t' & Ht' & Hm).
      exists t'. split; [by right | done].
  - intros Hr. destruct (IH Hr) as (t' & Ht' & Hm).
    exists t'. split; [by right | done].
Qed.

Lemma authenticate_scan_false teachers user password :
  authenticate_scan checkpw teachers user password = Return false →
  ¬ credential_matches checkpw teachers user password.
Proof.
  unfold credential_matches.
  induction teachers as [|t rest IH]; simpl.
  - intros _ (t & Ht & _). by apply elem_of_nil in Ht.
  - destruct (String.eqb (username t) user) eqn:Hu.
    + destruct (checkpw (encode password) (encode (password_hash t)))
        as [[|]|e] eqn:Hc; [done| |done].
      intros Hr (t' & Ht' & Hu' & Hc').
      apply elem_of_cons in Ht' as [-> | Ht']; [congruence|].
      apply (IH Hr). by exists t'.
    + apply String.eqb_neq in Hu.
      intros Hr (t' & Ht' & Hu' & Hc').
      apply elem_of_cons in Ht' as [-> | Ht']; [congruence|].
      apply (IH Hr). by exists t'.
Qed.

Lemma authenticate_scan_answers teachers user password :
  checkpw_answers checkpw teachers user password →
  ∃ b, authenticate_scan checkpw teachers user password = Return b.
Proof.
  unfold checkpw_answers.
  induction teachers as [|t rest IH]; intros Hans; simpl; [by eexists|].
  assert (Hrest : ∃ b, authenticate_scan checkpw rest user password
                       = Return b).
  { apply IH. intros t' Ht'. apply Hans. by right. }
  destruct (String.eqb (username t) user) eqn:Hu; [|done].
  apply String.eqb_eq in Hu.
  destruct (Hans t (list_elem_of_here _ _) Hu) as [[|] ->]; [by eexists | done].
Qed.

Lemma authenticate_scan_iff teachers user password :
  checkpw_answers checkpw teachers user password →
  (credential_matches checkpw teachers user password →
   authenticate_scan checkpw teachers user password = Return true)
  ∧ (¬ credential_matches checkpw teachers user password →
     authenticate_scan checkpw teachers user password = Return false).
Proof.
  intros Hans. destruct (authenticate_scan_answers _ _ _ Hans) as [[|] Hb].
  - split; [done|]. intros Hn. destruct Hn. by apply authenticate_scan_true.
  - split; [|done]. intros Hm.
    by destruct (authenticate_scan_false _ _ _ Hb).
Qed.

End LoginProperties.






(** ** Frame *)

Lemma same_details_refl a : same_details a a.
Proof. done. Qed.

Lemma same_details_trans a b c :
  same_details a b → same_details b c → same_details a c.
Proof.
  intros (Hd & Hs & Hm) (Hd' & Hs' & Hm'). repeat split; congruence.
Qed.

Lemma same_details_set_participants ps a :
  same_details a (set_participants ps a).
Proof. done. Qed.

Section Frame.

Variable name : string.
Variable reg : gmap string Activity.

Lemma only_participants_of_same : only_participants_of name reg reg.
Proof.
  split; [done|]. split; [done|].
  intros a Ha. exists a. split; [done | apply same_details_refl].
Qed.

Lemma only_participants_of_update a ps :
  reg !! name = Some a →
  only_participants_of name reg (<[name := set_participants ps a]> reg).
Proof.
  intros Ha. split; [|split].
  - rewrite dom_insert_L.
    apply subseteq_union_1_L, singleton_subseteq_l, elem_of_dom.
    by eexists.
  - intros other Hne. by rewrite lookup_insert_ne.
  - intros a0 Ha0. rewrite Ha in Ha0. injection Ha0 as <-.
    exists (set_participants ps a).
    split; [apply lookup_insert_eq | apply same_details_set_participants].
Qed.

Lemma signup_frame email request :
  only_participants_of name reg
    (signup_for_activity name email request reg).2.
Proof.
  unfold signup_for_activity.
  destruct (negb (truthy (get_current_user request)));
    [apply only_participants_of_same|].
  destruct (reg !! name) as [a|] eqn:Ha;
    [|apply only_participants_of_same].
  destruct (list_contains email (participants a));
    [apply only_participants_of_same|].
  by apply only_participants_of_update.
Qed.

Lemma unregister_frame email request :
  only_participants_of name reg
    (unregister_from_activity name email request reg).2.
Proof.
  unfold unregister_from_activity.
  destruct (negb (truthy (get_current_user request)));
    [apply only_participants_of_same|].
  destruct (reg !! name) as [a|] eqn:Ha;
    [|apply only_participants_of_same].
  destruct (negb (list_contains email (participants a)));
    [apply only_participants_of_same|].
  destruct (list_remove email (participants a)) as [ps|e];
    [|apply only_participants_of_same].
  by apply only_participants_of_update.
Qed.

End Frame.

Lemma only_participants_same_catalogue name (before after : gmap string Activity) :
  only_participants_of name before after → same_catalogue before after.
Proof.
  intros (Hdom & Hother & Hname). split; [done|].
  intros n a Ha. destruct (decide (n = name)) as [->|Hne].
  - by apply Hname.
  - exists a. rewrite (Hother n Hne). split; [done | apply same_details_refl].
Qed.

Lemma same_catalogue_refl (reg : gmap string Activity) : same_catalogue reg reg.
Proof.
  split; [done|]. intros n a Ha. exists a.
  split; [done | apply same_details_refl].
Qed.

Lemma same_catalogue_trans (r1 r2 r3 : gmap string Activity) :
  same_catalogue r1 r2 → same_catalogue r2 r3 → same_catalogue r1 r3.
Proof.
  intros [Hd12 H12] [Hd23 H23]. split; [congruence|].
  intros n a Ha. destruct (H12 n a Ha) as (a2 & Ha2 & Hs2).
  destruct (H23 n a2 Ha2) as (a3 & Ha3 & Hs3).
  exists a3. split; [done | by eapply same_details_trans].
Qed.

Section ServiceProperties.

Variable checkpw : list Byte.byte -> list Byte.byte -> Outcome bool.
Variable cookie_error : string -> string -> option Exception.

Lemma handle_read_only call (reg : gmap string Activity) :
  read_only call = true → handle checkpw cookie_error call reg = reg.
Proof. by destruct call. Qed.

Lemma handle_same_catalogue call (reg : gmap string Activity) :
  same_catalogue reg (handle checkpw cookie_error call reg).
Proof.
  destruct call; simpl; try apply same_catalogue_refl.
  - eapply only_participants_same_catalogue, signup_frame.
  - eapply only_participants_same_catalogue, unregister_frame.
Qed.

Lemma serve_same_catalogue calls (reg : gmap string Activity) :
  same_catalogue reg (serve checkpw cookie_error calls reg).
Proof.
  revert reg. induction calls as [|call calls IH]; intros reg.
  - apply same_catalogue_refl.
  - simpl. eapply same_catalogue_trans; [apply handle_same_catalogue|].
    apply IH.
Qed.

End ServiceProperties.

Lemma activities_dom : dom activities = list_to_set activity_names.
Proof. vm_compute. reflexivity. Qed.

Lemma activities_size : size activities = 9%nat.
Proof. vm_compute. reflexivity. Qed.

(** C9: frame.  A SignUp or Unregister call leaves the key set of the
    registry, every entry under another name, and the description, schedule
    and capacity of the named entry as they were: at most the participant
    list of the named activity differs.  The other calls (root, list
    activities, login, logout, whoami) return the registry as they found it.
    Hence after any sequence of calls from the initial registry the keys are
    the nine initial activity names and each activity has its initial
    description, schedule and capacity. *)
Theorem registry_frame :
  (∀ activity_name email request (reg : gmap string Activity),
      only_participants_of activity_name reg
        (signup_for_activity activity_name email request reg).2
      ∧ only_participants_of activity_name reg
          (unregister_from_activity activity_name email request reg).2)
  ∧ (∀ checkpw cookie_error call (reg : gmap string Activity),
        if read_only call then handle checkpw cookie_error call reg = reg
        else ∃ activity_name,
               only_participants_of activity_name reg
                 (handle checkpw cookie_error call reg))
  ∧ (∀ checkpw cookie_error calls,
        dom (serve checkpw cookie_error calls activities) = list_to_set activity_names
        ∧ size (serve checkpw cookie_error calls activities) = 9%nat
        ∧ ∀ name a,
            activities !! name = Some a →
            ∃ a', serve checkpw cookie_error calls activities !! name = Some a'
                  ∧ same_details a a').
Proof.
  split; [|split].
  - intros activity_name email request reg.
    split; [apply signup_frame | apply unregister_frame].
  - intros checkpw cookie_error call reg.
    destruct (read_only call) eqn:Hro; [by apply handle_read_only|].
    destruct call; try discriminate; simpl; exists activity_name.
    + apply signup_frame.
    + apply unregister_frame.
  - intros checkpw cookie_error calls.
    destruct (serve_same_catalogue checkpw cookie_error calls activities) as [Hdom Hall].
    split; [by rewrite Hdom, activities_dom|].
    split; [|exact Hall].
    rewrite <- size_dom, Hdom, size_dom. apply activities_size.
Qed.

(** * Further properties of the handlers *)

(** ** [list.remove] *)

Lemma list_remove_Return x l l' :
  list_remove x l = Return l' →
  ∃ before after, l = before ++ x :: after ∧ l' = before ++ after ∧ x ∉ before.
Proof.
  revert l'. induction l as [|y l IH]; intros l'; simpl; [done|].
  destruct (decide (y = x)) as [->|Hne].
  - intros [= <-]. exists [], l. split; [done|]. split; [done|].
    apply not_elem_of_nil.
  - destruct (list_remove x l) as [r|e] eqn:Hr; [|done].
    intros [= <-]. destruct (IH r eq_refl) as (before & after & -> & -> & Hx).
    exists (y :: before), after. split; [done|]. split; [done|].
    apply not_elem_of_cons. split; [congruence | done].
Qed.

Lemma list_remove_absent x l :
  x ∉ l → list_remove x l = Raise (ValueError "list.remove(x): x not in list").
Proof.
  induction l as [|y l IH]; intros Hx; simpl; [done|].
  apply not_elem_of_cons in Hx as [Hne Hx].
  rewrite decide_False by congruence. by rewrite IH.
Qed.

Lemma contains_unregister_activity email activity_name :
  contains ("Unregistered " +:+ email +:+ " from " +:+ activity_name)
    activity_name.
Proof.
  rewrite <- !string_app_assoc. apply contains_suffix.
Qed.

(** ** Unregistering *)

(** X1: with a non-empty session cookie, unregistering an email that is in
    the participant list of a registered activity returns a message that
    contains the email and the activity name, and removes the first
    occurrence of the email and nothing else: the entries before it and after
    it stay, in their order, and the list is one entry shorter. *)
Theorem unregister_removes_first (reg : gmap string Activity)
    activity_name email request s activity :
  reg !! activity_name = Some activity →
  email ∈ participants activity →
  has_session request s →
  ∃ msg before after,
    participants activity = before ++ email :: after
    ∧ (email ∉ before)
    ∧ unregister_from_activity activity_name email request reg
      = (Return [("message", Str msg)],
         <[activity_name := set_participants (before ++ after) activity]> reg)
    ∧ contains msg email ∧ contains msg activity_name
    ∧ S (length (before ++ after)) = length (participants activity).
Proof.
  intros Hl He Hs.
  destruct (unregister_member _ _ _ _ s Hs activity Hl He) as (ps & Hps & ->).
  destruct (list_remove_Return _ _ _ Hps) as (before & after & Hsplit & -> & Hb).
  eexists _, before, after. split; [exact Hsplit|]. split; [exact Hb|].
  split; [reflexivity|]. split; [apply contains_unregister_email|].
  split; [apply contains_unregister_activity|].
  rewrite Hsplit, !length_app. simpl. lia.
Qed.

Lemma activities_chess_club' : activities !! "Chess Club" = Some chess_club.
Proof. apply activities_chess_club. Qed.

Lemma daniel_in_chess_club :
  "daniel@mergington.edu" ∈ participants chess_club.
Proof. apply list_contains_true. vm_compute. reflexivity. Qed.

Lemma unregister_removes_first_witness :
  activities !! "Chess Club" = Some chess_club
  ∧ ("daniel@mergington.edu" ∈ participants chess_club)
  ∧ has_session teacher_request "teacher1"
  ∧ ∃ msg before after,
      participants chess_club = before ++ "daniel@mergington.edu" :: after
      ∧ unregister_from_activity "Chess Club" "daniel@mergington.edu"
          teacher_request activities
        = (Return [("message", Str msg)],
           <["Chess Club" := set_participants (before ++ after) chess_club]>
             activities).
Proof.
  split; [apply activities_chess_club'|].
  split; [apply daniel_in_chess_club|].
  split; [apply teacher_request_session|].
  destruct (unregister_removes_first activities "Chess Club"
              "daniel@mergington.edu" teacher_request "teacher1" chess_club
              activities_chess_club' daniel_in_chess_club
              teacher_request_session)
    as (msg & before & after & Hsplit & _ & Heq & _).
  exists msg, before, after. split; [exact Hsplit | exact Heq].
Defined.

(** ** No email twice in a list *)

Lemma no_duplicates_insert name a (reg : gmap string Activity) :
  no_duplicates reg → NoDup (participants a) →
  no_duplicates (<[name := a]> reg).
Proof.
  intros Hreg Ha n b Hb. destruct (decide (name = n)) as [->|Hne].
  - rewrite lookup_insert_eq in Hb. by injection Hb as <-.
  - rewrite lookup_insert_ne in Hb by done. by eapply Hreg.
Qed.

Lemma signup_no_duplicates activity_name email request
    (reg : gmap string Activity) :
  no_duplicates reg →
  no_duplicates (signup_for_activity activity_name email request reg).2.
Proof.
  intros Hreg. unfold signup_for_activity.
  destruct (negb (truthy (get_current_user request))); [done|].
  destruct (reg !! activity_name) as [a|] eqn:Ha; [|done].
  destruct (list_contains email (participants a)) eqn:He; [done|].
  apply list_contains_false in He. simpl.
  apply no_duplicates_insert; [done|]. simpl. unfold list_append.
  apply NoDup_app. split; [by eapply Hreg|].
  split; [|apply NoDup_singleton].
  intros x Hx Hx'. apply list_elem_of_singleton in Hx'. by subst x.
Qed.

Lemma unregister_no_duplicates activity_name email request
    (reg : gmap string Activity) :
  no_duplicates reg →
  no_duplicates (unregister_from_activity activity_name email request reg).2.
Proof.
  intros Hreg. unfold unregister_from_activity.
  destruct (negb (truthy (get_current_user request))); [done|].
  destruct (reg !! activity_name) as [a|] eqn:Ha; [|done].
  destruct (negb (list_contains email (participants a))); [done|].
  destruct (list_remove email (participants a)) as [ps|e] eqn:Hps; [|done].
  simpl. apply no_duplicates_insert; [done|]. simpl.
  destruct (list_remove_Return _ _ _ Hps) as (before & after & Hsplit & -> & _).
  pose proof (Hreg _ _ Ha) as Hnd. rewrite Hsplit in Hnd.
  apply NoDup_app in Hnd as (Hb & Hdisj & Ha').
  apply NoDup_cons in Ha' as [_ Ha'].
  apply NoDup_app. split; [done|]. split; [|done].
  intros x Hx Hx'. apply (Hdisj x Hx). by right.
Qed.

Lemma activities_no_duplicates : no_duplicates activities.
Proof.
  assert (Hall : map_Forall (λ _ a, NoDup (participants a)) activities).
  { apply (bool_decide_unpack _). vm_compute. exact I. }
  intros name a Ha. exact (Hall name a Ha).
Qed.

Lemma handle_no_duplicates checkpw cookie_error call (reg : gmap string Activity) :
  no_duplicates reg → no_duplicates (handle checkpw cookie_error call reg).
Proof.
  intros Hreg. destruct call; simpl; try done.
  - by apply signup_no_duplicates.
  - by apply unregister_no_duplicates.
Qed.

(** X2: the registry handlers keep every participant list free of
    duplicates.  Each call takes a registry without duplicates to one without
    duplicates, and the initial registry has none, so after any sequence of
    calls no activity lists an email twice. *)
Theorem serve_no_duplicates :
  (∀ checkpw cookie_error call (reg : gmap string Activity),
      no_duplicates reg → no_duplicates (handle checkpw cookie_error call reg))
  ∧ (∀ checkpw cookie_error calls, no_duplicates (serve checkpw cookie_error calls activities)).
Proof.
  split; [apply handle_no_duplicates|].
  intros checkpw cookie_error calls.
  assert (Hgen : ∀ reg : gmap string Activity,
             no_duplicates reg → no_duplicates (serve checkpw cookie_error calls reg)).
  { induction calls as [|call calls IH]; intros reg Hreg; [done|].
    simpl. apply IH. by apply handle_no_duplicates. }
  apply Hgen, activities_no_duplicates.
Qed.

Lemma serve_no_duplicates_witness :
  no_duplicates activities
  ∧ no_duplicates
      (handle plain_checkpw accepting_cookies
         (CallSignup "Chess Club" "new@mergington.edu" teacher_request)
         activities)
  ∧ no_duplicates (serve plain_checkpw accepting_cookies fill_math_club activities).
Proof.
  split; [apply activities_no_duplicates|].
  split.
  - exact (proj1 serve_no_duplicates plain_checkpw accepting_cookies _ activities
             activities_no_duplicates).
  - exact (proj2 serve_no_duplicates plain_checkpw accepting_cookies fill_math_club).
Defined.

(** X3: when the participant list of a registered activity holds no email
    twice, a successful Unregister leaves the email out of the list
    altogether, so that unregistering it once more (again with a non-empty
    session cookie) is refused with the 400 "not signed up" exception and
    changes nothing. *)
Theorem unregister_twice_rejected (reg : gmap string Activity)
    activity_name email request s request' s' activity :
  reg !! activity_name = Some activity →
  NoDup (participants activity) →
  email ∈ participants activity →
  has_session request s →
  has_session request' s' →
  let first := unregister_from_activity activity_name email request reg in
  status_of first.1 = Some 200
  ∧ (∃ ps, participants_of activity_name first.2 = Some ps ∧ email ∉ ps)
  ∧ unregister_from_activity activity_name email request' first.2
    = (Raise not_registered, first.2).
Proof.
  intros Hl Hnd He Hs Hs' first. subst first.
  destruct (unregister_member _ _ _ _ s Hs activity Hl He) as (ps & Hps & ->).
  destruct (list_remove_Return _ _ _ Hps) as (before & after & Hsplit & -> & Hb).
  assert (Hout : email ∉ before ++ after).
  { rewrite Hsplit in Hnd. apply NoDup_app in Hnd as (_ & _ & Ha).
    apply NoDup_cons in Ha as [Ha _].
    intros Hin. apply elem_of_app in Hin as [Hin|Hin]; [by apply Hb | by apply Ha]. }
  simpl. split; [done|]. split.
  - exists (before ++ after). by rewrite participants_of_insert.
  - eapply unregister_absent; [exact Hs' | apply lookup_insert_eq | exact Hout].
Qed.

Lemma chess_club_NoDup : NoDup (participants chess_club).
Proof. apply (bool_decide_unpack _). vm_compute. exact I. Qed.

Lemma unregister_twice_rejected_witness :
  activities !! "Chess Club" = Some chess_club
  ∧ NoDup (participants chess_club)
  ∧ ("daniel@mergington.edu" ∈ participants chess_club)
  ∧ has_session teacher_request "teacher1"
  ∧ unregister_from_activity "Chess Club" "daniel@mergington.edu"
      teacher_request
      (unregister_from_activity "Chess Club" "daniel@mergington.edu"
         teacher_request activities).2
    = (Raise not_registered,
       (unregister_from_activity "Chess Club" "daniel@mergington.edu"
          teacher_request activities).2).
Proof.
  split; [apply activities_chess_club'|].
  split; [apply chess_club_NoDup|].
  split; [apply daniel_in_chess_club|].
  split; [apply teacher_request_session|].
  exact (proj2 (proj2
           (unregister_twice_rejected activities "Chess Club"
              "daniel@mergington.edu" teacher_request "teacher1"
              teacher_request "teacher1" chess_club activities_chess_club'
              chess_club_NoDup daniel_in_chess_club teacher_request_session
              teacher_request_session))).
Defined.

(** X5: signing up the same email for the same activity twice.  After a
    successful SignUp a second SignUp of that email for that activity (with
    any non-empty session cookie) is refused with the 400 "already signed up"
    exception, and the registry stays as the first call left it. *)
Theorem signup_twice_rejected (reg : gmap string Activity)
    activity_name email request s request' s' activity :
  reg !! activity_name = Some activity →
  email ∉ participants activity →
  has_session request s →
  has_session request' s' →
  let first := signup_for_activity activity_name email request reg in
  status_of first.1 = Some 200
  ∧ signup_for_activity activity_name email request' first.2
    = (Raise already_registered, first.2).
Proof.
  intros Hl He Hs Hs' first. subst first.
  rewrite (signup_new _ _ _ _ s Hs activity Hl He). simpl.
  split; [done|].
  eapply signup_member; [exact Hs' | apply lookup_insert_eq |].
  simpl. apply elem_of_app. right. by left.
Qed.

Lemma stranger_not_in_chess_club' :
  "stranger@mergington.edu" ∉ participants chess_club.
Proof. apply stranger_not_in_chess_club. Qed.

Lemma signup_twice_rejected_witness :
  activities !! "Chess Club" = Some chess_club
  ∧ ("stranger@mergington.edu" ∉ participants chess_club)
  ∧ has_session teacher_request "teacher1"
  ∧ has_session forged_request "nobody"
  ∧ signup_for_activity "Chess Club" "stranger@mergington.edu" forged_request
      (signup_for_activity "Chess Club" "stranger@mergington.edu"
         teacher_request activities).2
    = (Raise already_registered,
       (signup_for_activity "Chess Club" "stranger@mergington.edu"
          teacher_request activities).2).
Proof.
  assert (Hs' : has_session forged_request "nobody").
  { split; [reflexivity | discriminate]. }
  split; [apply activities_chess_club'|].
  split; [apply stranger_not_in_chess_club'|].
  split; [apply teacher_request_session|].
  split; [exact Hs'|].
  exact (proj2
           (signup_twice_rejected activities "Chess Club"
              "stranger@mergington.edu" teacher_request "teacher1"
              forged_request "nobody" chess_club activities_chess_club'
              stranger_not_in_chess_club' teacher_request_session Hs')).
Defined.

(** ** Outcomes and mutation *)

Lemma insert_other_length name a ps (reg : gmap string Activity) :
  reg !! name = Some a →
  length ps ≠ length (participants a) →
  <[name := set_participants ps a]> reg ≠ reg.
Proof.
  intros Ha Hlen Heq.
  assert (Hl : <[name := set_participants ps a]> reg !! name = Some a)
    by (by rewrite Heq).
  rewrite lookup_insert_eq in Hl. injection Hl as Hl.
  apply (f_equal participants) in Hl. simpl in Hl.
  apply Hlen. by rewrite Hl.
Qed.

Lemma signup_changes_iff_success activity_name email request
    (reg : gmap string Activity) :
  status_of (signup_for_activity activity_name email request reg).1
  ∈ registry_statuses
  ∧ ((signup_for_activity activity_name email request reg).2 = reg
     ↔ status_of (signup_for_activity activity_name email request reg).1
       ≠ Some 200).
Proof.
  unfold signup_for_activity, registry_statuses.
  destruct (negb (truthy (get_current_user request))); simpl.
  { split; [set_solver | done]. }
  destruct (reg !! activity_name) as [a|] eqn:Ha; simpl.
  2: { split; [set_solver | done]. }
  destruct (list_contains email (participants a)); simpl.
  { split; [set_solver | done]. }
  split; [set_solver|]. split; [|done].
  intros Heq. exfalso. revert Heq. apply insert_other_length; [done|].
  unfold list_append. rewrite length_app. simpl. lia.
Qed.

Lemma unregister_changes_iff_success activity_name email request
    (reg : gmap string Activity) :
  status_of (unregister_from_activity activity_name email request reg).1
  ∈ registry_statuses
  ∧ ((unregister_from_activity activity_name email request reg).2 = reg
     ↔ status_of (unregister_from_activity activity_name email request reg).1
       ≠ Some 200).
Proof.
  unfold unregister_from_activity, registry_statuses.
  destruct (negb (truthy (get_current_user request))); simpl.
  { split; [set_solver | done]. }
  destruct (reg !! activity_name) as [a|] eqn:Ha; simpl.
  2: { split; [set_solver | done]. }
  destruct (list_contains email (participants a)) eqn:He; simpl.
  2: { split; [set_solver | done]. }
  apply list_contains_true in He.
  destruct (list_remove_elem _ _ He) as [ps Hps]. rewrite Hps. simpl.
  split; [set_solver|]. split; [|done].
  intros Heq. exfalso. revert Heq. apply insert_other_length; [done|].
  destruct (list_remove_Return _ _ _ Hps) as (before & after & -> & -> & _).
  rewrite !length_app. simpl. lia.
Qed.

(** X4: SignUp and Unregister answer with one of the statuses 200, 400, 401
    and 404 on every input; in particular the [ValueError] of [list.remove]
    never leaves [unregister_from_activity].  The registry after the call
    differs from the registry before it exactly when the status is 200: a
    refused call changes nothing, and a successful one always changes the
    registry. *)
Theorem registry_changes_iff_success activity_name email request
    (reg : gmap string Activity) :
  (status_of (signup_for_activity activity_name email request reg).1
   ∈ registry_statuses
   ∧ ((signup_for_activity activity_name email request reg).2 = reg
      ↔ status_of (signup_for_activity activity_name email request reg).1
        ≠ Some 200))
  ∧ (status_of (unregister_from_activity activity_name email request reg).1
     ∈ registry_statuses
     ∧ ((unregister_from_activity activity_name email request reg).2 = reg
        ↔ status_of
            (unregister_from_activity activity_name email request reg).1
          ≠ Some 200)).
Proof.
  split; [apply signup_changes_iff_success|].
  apply unregister_changes_iff_success.
Qed.

(** ** Who is calling *)

(** X6: the registry handlers do not look at who the caller is.  Two requests
    that both carry a non-empty session cookie, with whatever values and
    whatever other cookies, get the same answer and leave the same
    registry. *)
Theorem handlers_ignore_identity activity_name email request s request' s'
    (reg : gmap string Activity) :
  has_session request s →
  has_session request' s' →
  signup_for_activity activity_name email request reg
  = signup_for_activity activity_name email request' reg
  ∧ unregister_from_activity activity_name email request reg
    = unregister_from_activity activity_name email request' reg.
Proof.
  intros Hs Hs'. unfold signup_for_activity, unregister_from_activity.
  by rewrite (session_passes request s Hs), (session_passes request' s' Hs').
Qed.

Lemma handlers_ignore_identity_witness :
  has_session teacher_request "teacher1"
  ∧ has_session forged_request "nobody"
  ∧ signup_for_activity "Chess Club" "new@mergington.edu" teacher_request
      activities
    = signup_for_activity "Chess Club" "new@mergington.edu" forged_request
        activities.
Proof.
  assert (Hs' : has_session forged_request "nobody").
  { split; [reflexivity | discriminate]. }
  split; [apply teacher_request_session|]. split; [exact Hs'|].
  exact (proj1 (handlers_ignore_identity "Chess Club" "new@mergington.edu"
                  teacher_request "teacher1" forged_request "nobody"
                  activities teacher_request_session Hs')).
Defined.

(** ** The credential list *)

Lemma checkpw_answers_permutation checkpw teachers teachers' user password :
  teachers ≡ₚ teachers' →
  checkpw_answers checkpw teachers user password →
  checkpw_answers checkpw teachers' user password.
Proof.
  intros Hperm Hans t Ht. apply Hans. by rewrite Hperm.
Qed.

Lemma credential_matches_permutation checkpw teachers teachers' user
    password :
  teachers ≡ₚ teachers' →
  credential_matches checkpw teachers user password →
  credential_matches checkpw teachers' user password.
Proof.
  intros Hperm (t & Ht & Hm). exists t. split; [by rewrite <- Hperm | done].
Qed.

(** X7: when [bcrypt.checkpw] raises on no record with the given username,
    the order of the records in the credential file does not matter to
    Login: on two lists that are permutations of each other it gives the
    same outcome and the same response, so with several records of one
    username a password that verifies against any of them logs in.  Without
    that proviso the order matters: with a record that stores no hash
    before a good record of the same username Login raises, and with the
    two swapped it succeeds. *)
Theorem login_permutation :
  (∀ checkpw cookie_error teachers teachers' response user password,
      teachers ≡ₚ teachers' →
      checkpw_answers checkpw teachers user password →
      login checkpw cookie_error teachers response user password
      = login checkpw cookie_error teachers' response user password)
  ∧ (login strict_checkpw latin1_cookies broken_teacher_file fresh_response
       "teacher1" "chalk"
     = (Raise (ValueError "Invalid salt"), fresh_response)
     ∧ status_of (login strict_checkpw latin1_cookies
                    broken_teacher_file_swapped fresh_response
                    "teacher1" "chalk").1 = Some 200).
Proof.
  split; [|split; reflexivity].
  intros checkpw cookie_error teachers teachers' response user password
    Hperm Hans.
  pose proof (checkpw_answers_permutation _ _ _ _ _ Hperm Hans) as Hans'.
  unfold login, authenticate_teacher, load_teachers.
  destruct (authenticate_scan_iff checkpw _ _ _ Hans) as [Hyes Hno].
  destruct (authenticate_scan_answers checkpw _ _ _ Hans') as [[|] Hb'];
    rewrite Hb'.
  - rewrite Hyes; [done|].
    apply (credential_matches_permutation _ teachers'); [done|].
    by apply authenticate_scan_true.
  - rewrite Hno; [done|]. intros Hm.
    apply (authenticate_scan_false checkpw _ _ _ Hb').
    by apply (credential_matches_permutation _ teachers).
Qed.

Lemma login_permutation_witness :
  hashed_two_teacher_file ≡ₚ hashed_two_teacher_file_swapped
  ∧ checkpw_answers strict_checkpw hashed_two_teacher_file "teacher1" "chalk"
  ∧ login strict_checkpw latin1_cookies hashed_two_teacher_file
      fresh_response "teacher1" "chalk"
    = login strict_checkpw latin1_cookies hashed_two_teacher_file_swapped
        fresh_response "teacher1" "chalk".
Proof.
  assert (Hperm : hashed_two_teacher_file ≡ₚ hashed_two_teacher_file_swapped).
  { apply perm_swap. }
  assert (Hans : checkpw_answers strict_checkpw hashed_two_teacher_file
                   "teacher1" "chalk").
  { intros t Ht Hu. apply elem_of_cons in Ht as [-> | Ht].
    - by eexists.
    - apply list_elem_of_singleton in Ht. subst t. discriminate. }
  split; [exact Hperm|]. split; [exact Hans|].
  exact (proj1 login_permutation strict_checkpw latin1_cookies _ _
           fresh_response "teacher1" "chalk" Hperm Hans).
Defined.

(** X8: [authenticate_teacher] scans the credential list in order.  On a list
    made of two parts it gives the answer of the first part when that
    accepts or raises, without looking at the second, and the answer of the
    second part when the first rejects; so records added at the end of the
    file never lock out a username and password that were accepted before.
    On an empty credential list every Login is refused with the 401 "Invalid
    credentials" exception and sets no cookie. *)
Theorem authenticate_teacher_parts checkpw :
  (∀ l1 l2 user password,
      authenticate_teacher checkpw (l1 ++ l2) user password
      = match authenticate_teacher checkpw l1 user password with
        | Return false => authenticate_teacher checkpw l2 user password
        | answer => answer
        end)
  ∧ (∀ l1 l2 user password,
        authenticate_teacher checkpw l1 user password = Return true →
        authenticate_teacher checkpw (l1 ++ l2) user password = Return true)
  ∧ (∀ cookie_error response user password,
        login checkpw cookie_error [] response user password
        = (Raise invalid_credentials, response)).
Proof.
  split; [|split; [|done]].
  - intros l1 l2 user password. apply authenticate_scan_app.
  - intros l1 l2 user password. unfold authenticate_teacher, load_teachers.
    intros Hyes. by rewrite authenticate_scan_app, Hyes.
Qed.

Lemma authenticate_teacher_parts_witness :
  authenticate_teacher strict_checkpw hashed_teacher_file "teacher1" "chalk"
  = Return true
  ∧ authenticate_teacher strict_checkpw
      (hashed_teacher_file ++ one_teacher_file) "teacher1" "chalk"
    = Return true.
Proof.
  assert (Hyes : authenticate_teacher strict_checkpw hashed_teacher_file
                   "teacher1" "chalk" = Return true) by reflexivity.
  split; [exact Hyes|].
  exact (proj1 (proj2 (authenticate_teacher_parts strict_checkpw))
           hashed_teacher_file one_teacher_file "teacher1" "chalk" Hyes).
Defined.

(** ** Login, then whoami *)

(** X9: after a Login that returns for a non-empty username, the last cookie
    directive of the response sets the session cookie, and every request that
    carries the session cookie with the value of that directive is identified
    by [get_me] as that username and passes the session check of SignUp and
    Unregister. *)
Theorem login_then_whoami checkpw cookie_error teachers_file response user
    password body :
  (login checkpw cookie_error teachers_file response user password).1
  = Return body →
  user ≠ "" →
  ∃ value,
    last (cookie_directives
            (login checkpw cookie_error teachers_file response user
               password).2)
    = Some (SetCookie SESSION_COOKIE value true)
    ∧ ∀ request,
        cookies request !! SESSION_COOKIE = Some value →
        get_me request = [("user", Str user)]
        ∧ ∀ activity_name email (reg : gmap string Activity),
            status_of (signup_for_activity activity_name email request reg).1
            ≠ Some 401
            ∧ status_of
                (unregister_from_activity activity_name email request reg).1
              ≠ Some 401.
Proof.
  intros Hret Hu. exists user. split.
  - revert Hret. unfold login, set_cookie.
    destruct (authenticate_teacher checkpw teachers_file user password)
      as [[|]|e]; simpl; [|done..].
    destruct (cookie_error SESSION_COOKIE user); simpl; [done|].
    intros _. apply last_snoc.
  - intros request Hc.
    assert (Hs : has_session request user) by done.
    split.
    + unfold get_me. rewrite (get_current_user_session _ _ Hs).
      apply truthy_Some in Hu. by rewrite Hu.
    + intros activity_name email reg. split.
      * pose proof (signup_status_with_session activity_name email request
                      user reg Hs) as Hst.
        intros Heq. rewrite Heq in Hst. by apply passed_not_401 in Hst.
      * pose proof (unregister_status_with_session activity_name email
                      request user reg Hs) as Hst.
        intros Heq. rewrite Heq in Hst. by apply passed_not_401 in Hst.
Qed.

Lemma login_then_whoami_witness :
  (login strict_checkpw latin1_cookies hashed_teacher_file fresh_response
     "teacher1" "chalk").1
  = Return [("message", Str "Login successful"); ("user", Str "teacher1")]
  ∧ "teacher1" ≠ ""
  ∧ cookies teacher_request !! SESSION_COOKIE = Some "teacher1"
  ∧ last (cookie_directives
            (login strict_checkpw latin1_cookies hashed_teacher_file
               fresh_response "teacher1" "chalk").2)
    = Some (SetCookie SESSION_COOKIE "teacher1" true)
  ∧ get_me teacher_request = [("user", Str "teacher1")].
Proof.
  assert (Hret : (login strict_checkpw latin1_cookies hashed_teacher_file
                    fresh_response "teacher1" "chalk").1
                 = Return [("message", Str "Login successful");
                           ("user", Str "teacher1")]) by reflexivity.
  assert (Hu : "teacher1" ≠ "") by discriminate.
  assert (Hc : cookies teacher_request !! SESSION_COOKIE = Some "teacher1")
    by reflexivity.
  split; [exact Hret|]. split; [exact Hu|]. split; [exact Hc|].
  destruct (login_then_whoami strict_checkpw latin1_cookies
              hashed_teacher_file fresh_response "teacher1" "chalk" _
              Hret Hu) as (value & Hlast & Hreq).
  assert (Hv : value = "teacher1").
  { assert (Hl : last (cookie_directives
                         (login strict_checkpw latin1_cookies
                            hashed_teacher_file fresh_response
                            "teacher1" "chalk").2)
                 = Some (SetCookie SESSION_COOKIE "teacher1" true))
      by reflexivity.
    rewrite Hl in Hlast. by injection Hlast. }
  subst value. split; [exact Hlast|].
  exact (proj1 (Hreq teacher_request Hc)).
Defined.

(** ** Unregistering and signing up again *)

Lemma list_remove_split x before after :
  x ∉ before →
  list_remove x (before ++ x :: after) = Return (before ++ after).
Proof.
  induction before as [|y before IH]; intros Hx; simpl.
  - by rewrite decide_True.
  - apply not_elem_of_cons in Hx as [Hne Hx].
    rewrite decide_False by congruence. by rewrite IH.
Qed.

Lemma snoc_eq_cons_inv (x : string) l : l ++ [x] = x :: l → x ∉ l → l = [].
Proof.
  destruct l as [|y l]; [done|]. simpl. intros [= -> _] Hx.
  exfalso. apply Hx. by left.
Qed.

(** X10: Unregister followed by SignUp of the same email is not the inverse
    of SignUp followed by Unregister.  When the participant list holds no
    email twice and the email stands between [before] and [after], both
    calls succeed and the list becomes [before ++ after ++ [email]]: the same
    participants, with the email moved to the end.  The registry is the one
    before the two calls exactly when the email was the last entry. *)
Theorem unregister_signup_moves_last (reg : gmap string Activity)
    activity_name email request s request' s' activity before after :
  reg !! activity_name = Some activity →
  participants activity = before ++ email :: after →
  NoDup (participants activity) →
  has_session request s →
  has_session request' s' →
  let removed := unregister_from_activity activity_name email request reg in
  let added :=
    signup_for_activity activity_name email request' removed.2 in
  status_of removed.1 = Some 200
  ∧ status_of added.1 = Some 200
  ∧ participants_of activity_name added.2
    = Some (before ++ after ++ [email])
  ∧ (before ++ after ++ [email] ≡ₚ participants activity)
  ∧ (added.2 = reg ↔ after = []).
Proof.
  intros Hl Hsplit Hnd Hs Hs' removed added. subst added removed.
  assert (Hparts : (email ∉ before) ∧ (email ∉ after)).
  { rewrite Hsplit in Hnd. apply NoDup_app in Hnd as (_ & Hdisj & Ha).
    apply NoDup_cons in Ha as [Ha _]. split; [|done].
    intros Hin. apply (Hdisj _ Hin). by left. }
  destruct Hparts as [Hb Ha].
  assert (He : email ∈ participants activity).
  { rewrite Hsplit. apply elem_of_app. right. by left. }
  destruct (unregister_member _ _ _ _ s Hs activity Hl He) as (ps & Hps & ->).
  rewrite Hsplit, (list_remove_split _ _ _ Hb) in Hps. injection Hps as <-.
  simpl.
  set (short := set_participants (before ++ after) activity).
  assert (Hout : email ∉ participants short).
  { simpl. intros Hin.
    apply elem_of_app in Hin as [Hin|Hin]; [by apply Hb | by apply Ha]. }
  rewrite (signup_new activity_name email request'
             (<[activity_name := short]> reg) s' Hs' short
             (lookup_insert_eq _ _ _) Hout).
  simpl. split; [done|]. split; [done|].
  split; [by rewrite participants_of_insert; simpl; rewrite <- app_assoc|].
  split.
  - rewrite Hsplit. apply Permutation_app_head.
    symmetry. apply Permutation_cons_append.
  - rewrite insert_insert_eq. split.
    + intros Heq.
      assert (Hlk : <[activity_name :=
                        set_participants ((before ++ after) ++ [email]) short]>
                      reg !! activity_name = Some activity)
        by (by rewrite Heq).
      rewrite lookup_insert_eq in Hlk. injection Hlk as Hlk.
      apply (f_equal participants) in Hlk. simpl in Hlk.
      rewrite Hsplit, <- app_assoc in Hlk. apply app_inv_head in Hlk.
      by apply (snoc_eq_cons_inv email).
    + intros ->. apply insert_id. rewrite Hl. f_equal.
      destruct activity as [d sc m ps]. simpl in *. unfold short. simpl.
      unfold set_participants. simpl. rewrite app_nil_r. by rewrite Hsplit.
Qed.

Lemma unregister_signup_moves_last_witness :
  activities !! "Chess Club" = Some chess_club
  ∧ participants chess_club
    = [] ++ "michael@mergington.edu" :: ["daniel@mergington.edu"]
  ∧ NoDup (participants chess_club)
  ∧ has_session teacher_request "teacher1"
  ∧ participants_of "Chess Club"
      (signup_for_activity "Chess Club" "michael@mergington.edu"
         teacher_request
         (unregister_from_activity "Chess Club" "michael@mergington.edu"
            teacher_request activities).2).2
    = Some ["daniel@mergington.edu"; "michael@mergington.edu"].
Proof.
  assert (Hsplit : participants chess_club
                   = [] ++ "michael@mergington.edu"
                           :: ["daniel@mergington.edu"]) by reflexivity.
  split; [apply activities_chess_club'|]. split; [exact Hsplit|].
  split; [apply chess_club_NoDup|].
  split; [apply teacher_request_session|].
  exact (proj1 (proj2 (proj2
           (unregister_signup_moves_last activities "Chess Club"
              "michael@mergington.edu" teacher_request "teacher1"
              teacher_request "teacher1" chess_club []
              ["daniel@mergington.edu"] activities_chess_club' Hsplit
              chess_club_NoDup teacher_request_session
              teacher_request_session)))).
Defined.

(** ** Calls on different activities *)

Section Locality.

Variable checkpw : list Byte.byte -> list Byte.byte -> Outcome bool.
Variable cookie_error : string -> string -> option Exception.

Lemma handle_lookup_other call k (reg : gmap string Activity) :
  call_target call ≠ Some k →
  handle checkpw cookie_error call reg !! k = reg !! k.
Proof.
  intros Hk. destruct call; simpl in *; try done.
  - destruct (signup_frame activity_name reg email request) as (_ & Ho & _).
    apply Ho. congruence.
  - destruct (unregister_frame activity_name reg email request)
      as (_ & Ho & _).
    apply Ho. congruence.
Qed.

Lemma signup_local activity_name email request
    (reg reg' : gmap string Activity) :
  reg !! activity_name = reg' !! activity_name →
  (signup_for_activity activity_name email request reg).1
  = (signup_for_activity activity_name email request reg').1
  ∧ (signup_for_activity activity_name email request reg).2 !! activity_name
    = (signup_for_activity activity_name email request reg').2
      !! activity_name.
Proof.
  intros Heq. unfold signup_for_activity.
  destruct (negb (truthy (get_current_user request))); simpl; [by split|].
  destruct (reg !! activity_name) as [a|] eqn:Ha; rewrite <- Heq; simpl;
    [|split; [done | congruence]].
  destruct (list_contains email (participants a)); simpl.
  - split; [done | congruence].
  - split; [done|]. by rewrite !lookup_insert_eq.
Qed.

Lemma unregister_local activity_name email request
    (reg reg' : gmap string Activity) :
  reg !! activity_name = reg' !! activity_name →
  (unregister_from_activity activity_name email request reg).1
  = (unregister_from_activity activity_name email request reg').1
  ∧ (unregister_from_activity activity_name email request reg).2
    !! activity_name
    = (unregister_from_activity activity_name email request reg').2
      !! activity_name.
Proof.
  intros Heq. unfold unregister_from_activity.
  destruct (negb (truthy (get_current_user request))); simpl; [by split|].
  destruct (reg !! activity_name) as [a|] eqn:Ha; rewrite <- Heq; simpl;
    [|split; [done | congruence]].
  destruct (negb (list_contains email (participants a))); simpl.
  { split; [done | congruence]. }
  destruct (list_remove email (participants a)) as [ps|e]; simpl.
  - split; [done|]. by rewrite !lookup_insert_eq.
  - split; [done | congruence].
Qed.

Lemma handle_local call k (reg reg' : gmap string Activity) :
  call_target call = Some k →
  reg !! k = reg' !! k →
  handle checkpw cookie_error call reg !! k = handle checkpw cookie_error call reg' !! k.
Proof.
  intros Hk Heq. destruct call; simpl in *; try done.
  - injection Hk as ->. by apply signup_local.
  - injection Hk as ->. by apply unregister_local.
Qed.

End Locality.

(** X11: two calls that do not go to the same activity commute on the
    registry: served in either order they leave the same registry.  This
    covers two SignUp or Unregister calls for different activity names, and
    any call together with one that does not assign to the registry. *)
Theorem calls_on_different_activities_commute checkpw cookie_error c1 c2
    (reg : gmap string Activity) :
  (∀ name, call_target c1 = Some name → call_target c2 ≠ Some name) →
  handle checkpw cookie_error c1 (handle checkpw cookie_error c2 reg)
  = handle checkpw cookie_error c2 (handle checkpw cookie_error c1 reg).
Proof.
  intros Hdiff. apply map_eq. intros k.
  destruct (decide (call_target c1 = Some k)) as [H1|H1];
    destruct (decide (call_target c2 = Some k)) as [H2|H2].
  - by destruct (Hdiff k H1).
  - rewrite (handle_lookup_other checkpw cookie_error c2 k (handle checkpw cookie_error c1 reg) H2).
    apply handle_local; [done|]. by apply handle_lookup_other.
  - rewrite (handle_lookup_other checkpw cookie_error c1 k (handle checkpw cookie_error c2 reg) H1).
    symmetry. apply handle_local; [done|]. by apply handle_lookup_other.
  - by rewrite !handle_lookup_other.
Qed.

Lemma calls_on_different_activities_commute_witness :
  (∀ name,
      call_target (CallSignup "Chess Club" "new@mergington.edu"
                     teacher_request) = Some name →
      call_target (CallUnregister "Math Club" "james@mergington.edu"
                     teacher_request) ≠ Some name)
  ∧ handle plain_checkpw accepting_cookies
      (CallSignup "Chess Club" "new@mergington.edu" teacher_request)
      (handle plain_checkpw accepting_cookies
         (CallUnregister "Math Club" "james@mergington.edu" teacher_request)
         activities)
    = handle plain_checkpw accepting_cookies
        (CallUnregister "Math Club" "james@mergington.edu" teacher_request)
        (handle plain_checkpw accepting_cookies
           (CallSignup "Chess Club" "new@mergington.edu" teacher_request)
           activities).
Proof.
  assert (Hdiff : ∀ name,
             call_target (CallSignup "Chess Club" "new@mergington.edu"
                            teacher_request) = Some name →
             call_target (CallUnregister "Math Club" "james@mergington.edu"
                            teacher_request) ≠ Some name).
  { simpl. intros name [= <-]. discriminate. }
  split; [exact Hdiff|].
  exact (calls_on_different_activities_commute plain_checkpw accepting_cookies _ _ activities
           Hdiff).
Defined.

(** X12: the answer to a SignUp or Unregister call depends on the registry
    only through the entry of the named activity: after any call that does
    not go to that activity the answer is the same as before it. *)
Theorem answer_unaffected_by_other_calls checkpw cookie_error call activity_name email
    request (reg : gmap string Activity) :
  call_target call ≠ Some activity_name →
  (signup_for_activity activity_name email request
     (handle checkpw cookie_error call reg)).1
  = (signup_for_activity activity_name email request reg).1
  ∧ (unregister_from_activity activity_name email request
       (handle checkpw cookie_error call reg)).1
    = (unregister_from_activity activity_name email request reg).1.
Proof.
  intros Hk.
  pose proof (handle_lookup_other checkpw cookie_error call activity_name reg Hk) as Heq.
  split.
  - by apply signup_local.
  - by apply unregister_local.
Qed.

Lemma answer_unaffected_by_other_calls_witness :
  call_target (CallSignup "Math Club" "michael@mergington.edu"
                 teacher_request) ≠ Some "Chess Club"
  ∧ (signup_for_activity "Chess Club" "michael@mergington.edu"
       teacher_request
       (handle plain_checkpw accepting_cookies
          (CallSignup "Math Club" "michael@mergington.edu" teacher_request)
          activities)).1
    = Raise already_registered.
Proof.
  assert (Hk : call_target (CallSignup "Math Club" "michael@mergington.edu"
                              teacher_request) ≠ Some "Chess Club").
  { simpl. discriminate. }
  split; [exact Hk|].
  rewrite (proj1 (answer_unaffected_by_other_calls plain_checkpw accepting_cookies _
                    "Chess Club" "michael@mergington.edu" teacher_request
                    activities Hk)).
  reflexivity.
Defined.

(** ** The other participants *)

Lemma occurrences_cons_other x y l :
  y ≠ x → occurrences x (y :: l) = occurrences x l.
Proof. intros Hne. unfold occurrences. by rewrite filter_cons_False. Qed.

Lemma occurrences_snoc_other x y l :
  y ≠ x → occurrences x (l ++ [y]) = occurrences x l.
Proof.
  intros Hne. rewrite occurrences_app, (occurrences_cons_other x y []) by done.
  unfold occurrences at 2. simpl. lia.
Qed.

Lemma signup_other_email name activity_name email other request
    (reg : gmap string Activity) :
  other ≠ email →
  occurrences other
    <$> participants_of name
          (signup_for_activity activity_name email request reg).2
  = occurrences other <$> participants_of name reg.
Proof.
  intros Hne. unfold participants_of.
  destruct (decide (name = activity_name)) as [->|Hname].
  2: { destruct (signup_frame activity_name reg email request)
         as (_ & Ho & _). by rewrite (Ho name Hname). }
  unfold signup_for_activity.
  destruct (negb (truthy (get_current_user request))); [done|].
  destruct (reg !! activity_name) as [a|] eqn:Ha; simpl; [|by rewrite Ha].
  destruct (list_contains email (participants a)); simpl; [by rewrite Ha|].
  rewrite lookup_insert_eq. simpl. unfold list_append.
  by rewrite occurrences_snoc_other.
Qed.

Lemma unregister_other_email name activity_name email other request
    (reg : gmap string Activity) :
  other ≠ email →
  occurrences other
    <$> participants_of name
          (unregister_from_activity activity_name email request reg).2
  = occurrences other <$> participants_of name reg.
Proof.
  intros Hne. unfold participants_of.
  destruct (decide (name = activity_name)) as [->|Hname].
  2: { destruct (unregister_frame activity_name reg email request)
         as (_ & Ho & _). by rewrite (Ho name Hname). }
  unfold unregister_from_activity.
  destruct (negb (truthy (get_current_user request))); [done|].
  destruct (reg !! activity_name) as [a|] eqn:Ha; simpl; [|by rewrite Ha].
  destruct (negb (list_contains email (participants a))); simpl;
    [by rewrite Ha|].
  destruct (list_remove email (participants a)) as [ps|e] eqn:Hps; simpl;
    [|by rewrite Ha].
  rewrite lookup_insert_eq. simpl.
  destruct (list_remove_Return _ _ _ Hps) as (before & after & -> & -> & _).
  rewrite !occurrences_app. by rewrite occurrences_cons_other.
Qed.

(** X13: a SignUp or Unregister call for an email changes nothing about any
    other email: in every activity, every other email occurs in the
    participant list after the call as often as before it, whatever the
    outcome of the call. *)
Theorem other_emails_unaffected name activity_name email other request
    (reg : gmap string Activity) :
  other ≠ email →
  (occurrences other
     <$> participants_of name
           (signup_for_activity activity_name email request reg).2)
  = (occurrences other <$> participants_of name reg)
  ∧ (occurrences other
       <$> participants_of name
             (unregister_from_activity activity_name email request reg).2)
    = (occurrences other <$> participants_of name reg).
Proof.
  intros Hne. split.
  - by apply signup_other_email.
  - by apply unregister_other_email.
Qed.

Lemma other_emails_unaffected_witness :
  "michael@mergington.edu" ≠ "daniel@mergington.edu"
  ∧ (occurrences "michael@mergington.edu"
       <$> participants_of "Chess Club"
             (unregister_from_activity "Chess Club" "daniel@mergington.edu"
                teacher_request activities).2)
    = Some 1%nat.
Proof.
  assert (Hne : "michael@mergington.edu" ≠ "daniel@mergington.edu")
    by discriminate.
  split; [exact Hne|].
  rewrite (proj2 (other_emails_unaffected "Chess Club" "Chess Club"
                    "daniel@mergington.edu" "michael@mergington.edu"
                    teacher_request activities Hne)).
  vm_compute. reflexivity.
Defined.

(** ** Listing the activities *)

(** X14: [get_activities] shows an activity exactly as it was (its details
    and its participant list) after any sequence of calls none of which is a
    SignUp or Unregister for that activity; an unknown name stays unknown. *)
Theorem get_activities_untouched checkpw cookie_error calls name
    (reg : gmap string Activity) :
  Forall (λ call, call_target call ≠ Some name) calls →
  get_activities (serve checkpw cookie_error calls reg) !! name = reg !! name.
Proof.
  unfold get_activities. revert reg.
  induction calls as [|call calls IH]; intros reg Hall; [done|].
  apply Forall_cons in Hall as [Hcall Hall]. simpl.
  rewrite (IH _ Hall). by apply handle_lookup_other.
Qed.

Lemma get_activities_untouched_witness :
  Forall (λ call, call_target call ≠ Some "Chess Club") fill_math_club
  ∧ get_activities (serve plain_checkpw accepting_cookies fill_math_club activities)
    !! "Chess Club" = Some chess_club.
Proof.
  assert (Hall : Forall (λ call, call_target call ≠ Some "Chess Club")
                   fill_math_club).
  { unfold fill_math_club. apply Forall_fmap, Forall_forall.
    intros email _. simpl. discriminate. }
  split; [exact Hall|].
  rewrite (get_activities_untouched plain_checkpw accepting_cookies fill_math_club
             "Chess Club" activities Hall).
  apply activities_chess_club'.
Defined.
